(** * glove_mqtt: sensor glove firmware (src/glove_mqtt.cpp)

    A shallow embedding of the Arduino sketch: the sensor acquisition and
    gesture classification, the touch debounce, the Wi-Fi / MQTT connection
    loops, the gesture publisher and the main [loop].

    The sketch talks to hardware and to two client libraries.  Their answers
    are inputs of the model: a [Hardware] value gives, for each kind of call,
    the answer to its k-th invocation.  Every call the sketch makes is
    recorded, with its answer, in a log carried by the program state, so
    properties of the order of calls are properties of that log. *)

From Stdlib Require Import ZArith Lia List String Ascii Bool.
From Stdlib Require Import Floats.SpecFloat.
Import ListNotations.
Local Open Scope string_scope.
Local Open Scope list_scope.
Local Open Scope Z_scope.

(** ** Numbers *)

(** [unsigned long] and [unsigned int] are 32 bits wide on the target. *)
Definition wrap32 (z : Z) : Z := z mod 2 ^ 32.

(** IEEE-754 values.  [float] is binary32, literals such as [-5.0] are
    binary64; a mixed comparison promotes the [float] operand to binary64,
    which is exact. *)
Definition double_prec : Z := 53.
Definition double_emax : Z := 1024.

Definition float_to_double (x : spec_float) : spec_float :=
  match x with
  | S754_finite s m e => binary_round double_prec double_emax s m e
  | _ => x
  end.

Definition double_of_Z (z : Z) : spec_float :=
  binary_normalize double_prec double_emax z 0 false.

(** The literals [-5.0] and [5.0]. *)
Definition LEFT_THRESHOLD : spec_float := Eval cbv in double_of_Z (-5).
Definition RIGHT_THRESHOLD : spec_float := Eval cbv in double_of_Z 5.

(** ** Constants of the sketch *)

Definition ssid : string := "Your_WiFi_SSID".
Definition password : string := "Your_WiFi_Password".
Definition mqttServer : string := "broker.hivemq.com".
Definition mqttPort : Z := 1883.
Definition mqttTopic : string := "robotic_arm/commands".

Definition FLEX_SENSOR_1_PIN : Z := 36.
Definition FLEX_SENSOR_2_PIN : Z := 39.
Definition TOUCH_SENSOR_1_PIN : Z := 4.
Definition TOUCH_SENSOR_2_PIN : Z := 14.

Definition GESTURE_FIST : Z := 1.
Definition GESTURE_OPEN_HAND : Z := 2.
Definition GESTURE_LEFT : Z := 3.
Definition GESTURE_RIGHT : Z := 4.

Definition readInterval : Z := 500.

(** Arduino's digital levels and the Wi-Fi status the sketch tests for. *)
Definition HIGH : Z := 1.
Definition LOW : Z := 0.
Definition WL_CONNECTED : Z := 3.

(** ** Sensor frame: the local variables of [detectGesture] *)

Record SensorFrame := mkFrame {
  flex1 : Z;
  flex2 : Z;
  accelX : spec_float;
  accelY : spec_float;
  accelZ : spec_float;
  touch1 : Z;
  touch2 : Z
}.

(** ** The four guards of the [if] / [else if] chain

    The flex thresholds are arguments so that the guards can be studied for
    other calibrations; the sketch uses 500 and 2000. *)
Section Guards.
Variables fist_max open_min : Z.

Definition fist_guard (f : SensorFrame) : bool :=
  (flex1 f <? fist_max) && (flex2 f <? fist_max) && (touch1 f =? HIGH).

Definition open_guard (f : SensorFrame) : bool :=
  (open_min <? flex1 f) && (open_min <? flex2 f) && (touch2 f =? HIGH).
End Guards.

Definition left_guard (f : SensorFrame) : bool :=
  SFltb (float_to_double (accelX f)) LEFT_THRESHOLD.

Definition right_guard (f : SensorFrame) : bool :=
  SFltb RIGHT_THRESHOLD (float_to_double (accelX f)).

(** Lines 160-169: the decision taken on the values read. *)
Definition classify (f : SensorFrame) : Z :=
  if fist_guard 500 f then GESTURE_FIST
  else if open_guard 2000 f then GESTURE_OPEN_HAND
  else if left_guard f then GESTURE_LEFT
  else if right_guard f then GESTURE_RIGHT
  else 0.

(** ** [snprintf(message, sizeof(message), "0x%02X", gestureCode)] *)

Definition hex_digit (d : Z) : ascii :=
  if d <? 10 then ascii_of_N (Z.to_N (48 + d))
  else ascii_of_N (Z.to_N (65 + (d - 10))).

(** Digits of [n], most significant first, in front of [acc]; a 32-bit value
    has at most eight. *)
Fixpoint hex_digits (fuel : nat) (n : Z) (acc : string) : string :=
  match fuel with
  | O => acc
  | S fuel' =>
      let acc' := String (hex_digit (n mod 16)) acc in
      if n / 16 =? 0 then acc' else hex_digits fuel' (n / 16) acc'
  end.

Fixpoint zero_pad (k : nat) (s : string) : string :=
  match k with
  | O => s
  | S k' => String "0"%char (zero_pad k' s)
  end.

(** [%02X]: the argument read as [unsigned int], upper-case digits, at least
    two of them. *)
Definition format_02X (v : Z) : string :=
  let d := hex_digits 8 (wrap32 v) EmptyString in
  zero_pad (2 - String.length d)%nat d.

Definition format_gesture (gestureCode : Z) : string :=
  ("0x" ++ format_02X gestureCode)%string.

(** [char message[10]]. *)
Definition message_size : nat := 10.

(** [snprintf] keeps at most [size - 1] characters and terminates them. *)
Definition snprintf (size : nat) (s : string) : string :=
  substring 0 (size - 1) s.

Definition gesture_message (gestureCode : Z) : string :=
  snprintf message_size (format_gesture gestureCode).

(** ** Calls and their record *)

(** One entry per call the sketch makes to the board, to the Wi-Fi stack, to
    the MQTT client or to the inertial sensor, with the answer it got. *)
Inductive Event :=
| SerialBegin (baud : Z)
| SerialPrint (s : string)
| SerialPrintln (s : string)
| SerialPrintInt (v : Z)
| SerialPrintlnInt (v : Z)
| SerialPrintFloat (v : spec_float)
| Delay (ms : Z)
| WiFiBegin (id pw : string)
| WiFiStatus (r : Z)
| MqttSetServer (host : string) (port : Z)
| MqttConnected (r : bool)
| MqttConnect (id : string) (r : bool)
| MqttState (r : Z)
| MqttPublish (topic payload : string) (r : bool)
| Millis (r : Z)
| AnalogRead (pin r : Z)
| DigitalRead (pin r : Z)
| MpuBegin (r : bool)
| MpuSetAccelerometerRange (g : Z)
| MpuSetGyroRange (deg : Z)
| MpuSetFilterBandwidth (hz : Z)
| MpuGetEvent (x y z : spec_float).

Definition is_WiFiStatus (ev : Event) : bool :=
  match ev with WiFiStatus _ => true | _ => false end.
Definition is_MqttConnected (ev : Event) : bool :=
  match ev with MqttConnected _ => true | _ => false end.
Definition is_MqttConnect (ev : Event) : bool :=
  match ev with MqttConnect _ _ => true | _ => false end.
Definition is_MqttState (ev : Event) : bool :=
  match ev with MqttState _ => true | _ => false end.
Definition is_MqttPublish (ev : Event) : bool :=
  match ev with MqttPublish _ _ _ => true | _ => false end.
Definition is_Millis (ev : Event) : bool :=
  match ev with Millis _ => true | _ => false end.
Definition is_AnalogRead (ev : Event) : bool :=
  match ev with AnalogRead _ _ => true | _ => false end.
Definition is_DigitalRead (ev : Event) : bool :=
  match ev with DigitalRead _ _ => true | _ => false end.
Definition is_MpuGetEvent (ev : Event) : bool :=
  match ev with MpuGetEvent _ _ _ => true | _ => false end.
Definition is_Delay (ev : Event) : bool :=
  match ev with Delay _ => true | _ => false end.

(** What the outside world answers: for each kind of call, the answer to its
    k-th invocation (k counted from 0 since power-up).  [hw_millis] is the
    uptime in milliseconds; [millis()] returns its low 32 bits. *)
Record Hardware := mkHardware {
  hw_wifi_status : nat -> Z;
  hw_mqtt_connected : nat -> bool;
  hw_mqtt_connect : nat -> bool;
  hw_mqtt_state : nat -> Z;
  hw_mqtt_publish : nat -> bool;
  hw_millis : nat -> Z;
  hw_analogRead : Z -> nat -> Z;
  hw_digitalRead : Z -> nat -> Z;
  hw_mpu_begin : bool;
  hw_mpu_getEvent : nat -> spec_float * spec_float * spec_float
}.

(** The sketch's only variable written after start-up, and the record of the
    calls made so far, newest first. *)
Record State := mkState {
  lastReadTime : Z;
  log : list Event
}.

Definition initial_state : State := {| lastReadTime := 0; log := [] |}.

(** Number of calls of one kind made so far. *)
Definition calls (kind : Event -> bool) (s : State) : nat :=
  List.length (filter kind (log s)).

(** ** Computations

    A computation either returns, or is still inside a [while] loop when the
    iterations granted to it are used up. *)
Inductive Result (A : Type) :=
| Done (a : A) (s : State)
| Spinning (s : State).
Arguments Done {A} a s.
Arguments Spinning {A} s.

Definition M (A : Type) : Type := Hardware -> State -> Result A.

Definition ret {A} (a : A) : M A := fun _ s => Done a s.

Definition bind {A B} (m : M A) (k : A -> M B) : M B :=
  fun hw s =>
    match m hw s with
    | Done a s' => k a hw s'
    | Spinning s' => Spinning s'
    end.

Notation "x <- m ;; k" := (bind m (fun x => k))
  (at level 61, m at next level, right associativity).
Notation "m ;; k" := (bind m (fun _ => k))
  (at level 61, right associativity).

Definition final_state {A} (r : Result A) : State :=
  match r with Done _ s => s | Spinning s => s end.

Definition returned {A} (r : Result A) : option A :=
  match r with Done a _ => Some a | Spinning _ => None end.

Definition push (ev : Event) (s : State) : State :=
  {| lastReadTime := lastReadTime s; log := ev :: log s |}.

(** A call without an answer. *)
Definition emit (ev : Event) : M unit := fun _ s => Done tt (push ev s).

(** A call with an answer: the k-th call of its kind gets the k-th answer. *)
Definition ask {A} (kind : Event -> bool) (answer : Hardware -> nat -> A)
    (record : A -> Event) : M A :=
  fun hw s => let a := answer hw (calls kind s) in Done a (push (record a) s).

Definition set_lastReadTime (t : Z) : M unit :=
  fun _ s => Done tt {| lastReadTime := t; log := log s |}.

Definition get_lastReadTime : M Z := fun _ s => Done (lastReadTime s) s.

(** [while (cond) body], run for at most [fuel] evaluations of [cond]. *)
Fixpoint while (fuel : nat) (cond : M bool) (body : M unit) : M unit :=
  match fuel with
  | O => fun _ s => Spinning s
  | S fuel' =>
      c <- cond ;;
      if c then body ;; while fuel' cond body else ret tt
  end.

(** [while (1);] *)
Definition halt {A} : M A := fun _ s => Spinning s.

(** *** The library calls *)

Definition Serial_print (s : string) : M unit := emit (SerialPrint s).
Definition Serial_println (s : string) : M unit := emit (SerialPrintln s).
Definition delay (ms : Z) : M unit := emit (Delay ms).
Definition WiFi_begin (id pw : string) : M unit := emit (WiFiBegin id pw).
Definition WiFi_status : M Z := ask is_WiFiStatus hw_wifi_status WiFiStatus.
Definition mqttClient_connected : M bool :=
  ask is_MqttConnected hw_mqtt_connected MqttConnected.
Definition mqttClient_connect (id : string) : M bool :=
  ask is_MqttConnect hw_mqtt_connect (MqttConnect id).
Definition mqttClient_state : M Z :=
  ask is_MqttState hw_mqtt_state MqttState.
Definition mqttClient_publish (topic payload : string) : M bool :=
  ask is_MqttPublish hw_mqtt_publish (MqttPublish topic payload).
Definition millis : M Z :=
  ask is_Millis (fun hw k => wrap32 (hw_millis hw k)) Millis.
Definition analogRead (pin : Z) : M Z :=
  ask is_AnalogRead (fun hw => hw_analogRead hw pin) (AnalogRead pin).
Definition digitalRead (pin : Z) : M Z :=
  ask is_DigitalRead (fun hw => hw_digitalRead hw pin) (DigitalRead pin).
Definition mpu_getEvent : M (spec_float * spec_float * spec_float) :=
  ask is_MpuGetEvent hw_mpu_getEvent
      (fun a => MpuGetEvent (fst (fst a)) (snd (fst a)) (snd a)).

Definition mpu_begin : M bool :=
  fun hw s => Done (hw_mpu_begin hw) (push (MpuBegin (hw_mpu_begin hw)) s).

(** Conversion of an [int] argument to a [float] parameter. *)
Definition float_of_int (z : Z) : spec_float := binary_normalize 24 128 z 0 false.

Definition newline : string := String (ascii_of_nat 10) EmptyString.

(** ** The functions of the sketch *)

(** Lines 89-98.  The condition and the body of the loop of line 93. *)
Definition wifi_down : M bool :=
  st <- WiFi_status ;; ret (negb (st =? WL_CONNECTED)).

Definition wifi_wait : M unit := delay 500 ;; Serial_print ".".

Definition connectToWiFi (fuel : nat) : M unit :=
  Serial_print "Connecting to Wi-Fi: " ;;
  Serial_println ssid ;;
  WiFi_begin ssid password ;;
  while fuel wifi_down wifi_wait ;;
  Serial_println (newline ++ "Wi-Fi Connected.")%string.

(** Lines 100-104. *)
Definition ensureWiFiConnection (fuel : nat) : M unit :=
  st <- WiFi_status ;;
  if negb (st =? WL_CONNECTED) then connectToWiFi fuel else ret tt.

(** Lines 106-117.  The condition and the body of the loop of line 107. *)
Definition mqtt_down : M bool :=
  c <- mqttClient_connected ;; ret (negb c).

Definition mqtt_attempt : M unit :=
  Serial_print "Connecting to MQTT..." ;;
  ok <- mqttClient_connect "ESP32" ;;
  if ok then Serial_println "Connected to MQTT Broker."
  else
    Serial_print "Failed. State=" ;;
    st <- mqttClient_state ;;
    emit (SerialPrintlnInt st) ;;
    delay 2000.

Definition connectToMQTT (fuel : nat) : M unit :=
  while fuel mqtt_down mqtt_attempt.

(** Lines 119-123. *)
Definition ensureMQTTConnection (fuel : nat) : M unit :=
  c <- mqttClient_connected ;;
  if negb c then connectToMQTT fuel else ret tt.

(** Lines 125-128. *)
Definition readFlexSensor (pin : Z) : M Z :=
  value <- analogRead pin ;;
  ret value.

(** Lines 130-136. *)
Definition readMPU6050 : M (spec_float * spec_float * spec_float) :=
  a <- mpu_getEvent ;;
  ret a.

(** Lines 138-145. *)
Definition debounceTouchSensor (pin : Z) : M Z :=
  stableValue <- digitalRead pin ;;
  delay 50 ;;
  second <- digitalRead pin ;;
  if second =? stableValue then ret stableValue else ret LOW.

(** Lines 172-180.  The two flex readings arrive as [float]; the text that
    [Serial.print] renders for a number is not modelled, the record keeps the
    number. *)
Definition debugSensors (f1 f2 aX aY aZ : spec_float) (t1 t2 : Z) : M unit :=
  Serial_print "Flex1: " ;; emit (SerialPrintFloat f1) ;;
  Serial_print ", Flex2: " ;; emit (SerialPrintFloat f2) ;;
  Serial_print ", AccelX: " ;; emit (SerialPrintFloat aX) ;;
  Serial_print ", AccelY: " ;; emit (SerialPrintFloat aY) ;;
  Serial_print ", AccelZ: " ;; emit (SerialPrintFloat aZ) ;;
  Serial_print ", Touch1: " ;; emit (SerialPrintInt t1) ;;
  Serial_print ", Touch2: " ;; emit (SerialPrintlnInt t2).

(** Lines 147-170. *)
Definition detectGesture : M Z :=
  f1 <- readFlexSensor FLEX_SENSOR_1_PIN ;;
  f2 <- readFlexSensor FLEX_SENSOR_2_PIN ;;
  a <- readMPU6050 ;;
  t1 <- debounceTouchSensor TOUCH_SENSOR_1_PIN ;;
  t2 <- debounceTouchSensor TOUCH_SENSOR_2_PIN ;;
  let aX := fst (fst a) in
  let aY := snd (fst a) in
  let aZ := snd a in
  debugSensors (float_of_int f1) (float_of_int f2) aX aY aZ t1 t2 ;;
  ret (classify (mkFrame f1 f2 aX aY aZ t1 t2)).

(** Lines 182-191. *)
Definition publishGesture (gestureCode : Z) : M unit :=
  let message := gesture_message gestureCode in
  ok <- mqttClient_publish mqttTopic message ;;
  if negb ok then Serial_println "Failed to publish gesture code!"
  else
    Serial_print "Published gesture code: " ;;
    Serial_println message.

(** The test of line 79, on [unsigned long] operands. *)
Definition interval_elapsed (currentTime lastRead : Z) : bool :=
  readInterval <=? wrap32 (currentTime - lastRead).

(** Lines 74-86. *)
Definition loop (fuel : nat) : M unit :=
  ensureWiFiConnection fuel ;;
  ensureMQTTConnection fuel ;;
  currentTime <- millis ;;
  last <- get_lastReadTime ;;
  if interval_elapsed currentTime last then
    set_lastReadTime currentTime ;;
    gestureCode <- detectGesture ;;
    if negb (gestureCode =? 0) then publishGesture gestureCode else ret tt
  else ret tt.

(** Lines 75-76: the two checks [loop] makes before anything else. *)
Definition ensure_ready (fuel : nat) : M unit :=
  ensureWiFiConnection fuel ;; ensureMQTTConnection fuel.

(** Lines 78-85: the part of [loop] that follows the two checks. *)
Definition sample_and_publish : M unit :=
  currentTime <- millis ;;
  last <- get_lastReadTime ;;
  if interval_elapsed currentTime last then
    set_lastReadTime currentTime ;;
    gestureCode <- detectGesture ;;
    if negb (gestureCode =? 0) then publishGesture gestureCode else ret tt
  else ret tt.

(** Lines 52-71. *)
Definition setup (fuel : nat) : M unit :=
  emit (SerialBegin 115200) ;;
  connectToWiFi fuel ;;
  emit (MqttSetServer mqttServer mqttPort) ;;
  connectToMQTT fuel ;;
  ok <- mpu_begin ;;
  (if negb ok then
     Serial_println "Failed to find MPU6050 chip." ;;
     halt
   else ret tt) ;;
  emit (MpuSetAccelerometerRange 8) ;;
  emit (MpuSetGyroRange 500) ;;
  emit (MpuSetFilterBandwidth 21).

(** [n] passes through [loop]. *)
Fixpoint loops (n fuel : nat) : M unit :=
  match n with
  | O => ret tt
  | S n' => loop fuel ;; loops n' fuel
  end.

(** The firmware: [setup], then [loop] again and again. *)
Definition firmware (n fuel : nat) : M unit := setup fuel ;; loops n fuel.

(** The calls in the order they were made. *)
Definition history (s : State) : list Event := rev (log s).

(** The entries of [s'] made since [s], newest first. *)
Definition added (s s' : State) : list Event :=
  firstn (List.length (log s') - List.length (log s)) (log s').

(** ** The rules of the classifier, as the specification words them *)



(** The value lines 141-144 return for two reads of a pin. *)
Definition debounced (first second : Z) : Z :=
  if second =? first then first else LOW.

(** The frame [detectGesture] assembles when started in state [s]: two analog
    reads, one inertial sample, two debounced touch channels. *)
Definition frame_read (hw : Hardware) (s : State) : SensorFrame :=
  let ka := calls is_AnalogRead s in
  let kd := calls is_DigitalRead s in
  let a := hw_mpu_getEvent hw (calls is_MpuGetEvent s) in
  {| flex1 := hw_analogRead hw FLEX_SENSOR_1_PIN ka;
     flex2 := hw_analogRead hw FLEX_SENSOR_2_PIN (S ka);
     accelX := fst (fst a);
     accelY := snd (fst a);
     accelZ := snd a;
     touch1 := debounced (hw_digitalRead hw TOUCH_SENSOR_1_PIN kd)
                         (hw_digitalRead hw TOUCH_SENSOR_1_PIN (S kd));
     touch2 := debounced (hw_digitalRead hw TOUCH_SENSOR_2_PIN (S (S kd)))
                         (hw_digitalRead hw TOUCH_SENSOR_2_PIN (S (S (S kd)))) |}.

(** The frame of a tilted fist: both flex channels low, touch 1 held, and an
    acceleration of -6.0 m/s^2 along x. *)
Definition minus_six : spec_float := S754_finite true 12582912 (-21).
Definition gravity : spec_float := S754_finite false 10276045 (-20).

Definition tilted_fist : SensorFrame :=
  {| flex1 := 100; flex2 := 100;
     accelX := minus_six; accelY := S754_zero false; accelZ := gravity;
     touch1 := HIGH; touch2 := LOW |}.

(** A frame of a hand at rest but for the given channels, and the binary32
    value -5.0. *)
Definition at_rest (f1 f2 : Z) (aX : spec_float) (t1 t2 : Z) : SensorFrame :=
  mkFrame f1 f2 aX (S754_zero false) gravity t1 t2.

Definition minus_five : spec_float := S754_finite true 10485760 (-21).

(** ** Overlap of the guards *)

Definition count_true (l : list bool) : nat := List.length (filter id l).

(** The guards that hold on a frame, for flex thresholds [fist_max] and
    [open_min]. *)
Definition guards_of (fist_max open_min : Z) (f : SensorFrame) : list bool :=
  [fist_guard fist_max f; open_guard open_min f; left_guard f; right_guard f].

Definition at_most_one_guard (fist_max open_min : Z) (f : SensorFrame) : bool :=
  (count_true (guards_of fist_max open_min f) <=? 1)%nat.

(** Readings the sensors can deliver: a 12-bit converter on the flex
    channels, binary touch levels, finite binary32 accelerations within the
    +-8 g (about 78.5 m/s^2) range that [setup] selects. *)
Definition accel_in_range (a : spec_float) : bool :=
  valid_binary 24 128 a &&
  SFleb (float_to_double (SFabs a)) (double_of_Z 79).

Definition in_sensor_range (f : SensorFrame) : bool :=
  (0 <=? flex1 f) && (flex1 f <=? 4095) &&
  (0 <=? flex2 f) && (flex2 f <=? 4095) &&
  ((touch1 f =? LOW) || (touch1 f =? HIGH)) &&
  ((touch2 f =? LOW) || (touch2 f =? HIGH)) &&
  accel_in_range (accelX f) && accel_in_range (accelY f) &&
  accel_in_range (accelZ f).

Definition payloads : list string := ["0x01"; "0x02"; "0x03"; "0x04"].

(** What [publishGesture] adds to the record: one send on the fixed topic,
    then one diagnostic. *)
Definition publish_report (message : string) (ok : bool) : list Event :=
  if ok then [SerialPrintln message; SerialPrint "Published gesture code: "]
  else [SerialPrintln "Failed to publish gesture code!"].

(** ** Hardware behaviours used as examples *)

(** A touch pin that changes level between any two reads. *)
Definition bouncing_pin : Hardware :=
  {| hw_wifi_status := fun _ => WL_CONNECTED;
     hw_mqtt_connected := fun _ => true;
     hw_mqtt_connect := fun _ => true;
     hw_mqtt_state := fun _ => 0;
     hw_mqtt_publish := fun _ => true;
     hw_millis := fun k => 600 * Z.of_nat k;
     hw_analogRead := fun _ _ => 1000;
     hw_digitalRead := fun _ k => if Nat.even k then HIGH else LOW;
     hw_mpu_begin := true;
     hw_mpu_getEvent := fun _ => (S754_zero false, S754_zero false, gravity) |}.

(** ** Framing: what a computation may add to the record *)

(** [s'] extends the record of [s] by entries that all satisfy [P]. *)
Definition grows (P : Event -> bool) (s s' : State) : Prop :=
  exists new, log s' = new ++ log s /\ forallb P new = true.

(** ... and leaves [lastReadTime] alone. *)
Definition quiet (P : Event -> bool) (s s' : State) : Prop :=
  lastReadTime s' = lastReadTime s /\ grows P s s'.

Definition only (P : Event -> bool) {A} (m : M A) : Prop :=
  forall hw s, quiet P s (final_state (m hw s)).

(** The entries each part of the sketch can add. *)
Definition wifi_event (ev : Event) : bool :=
  match ev with
  | SerialPrint _ | SerialPrintln _ | WiFiBegin _ _ | WiFiStatus _ => true
  | Delay ms => ms =? 500
  | _ => false
  end.

Definition mqtt_event (ev : Event) : bool :=
  match ev with
  | SerialPrint _ | SerialPrintln _ | SerialPrintlnInt _ | MqttConnected _
  | MqttConnect _ _ | MqttState _ => true
  | Delay ms => ms =? 2000
  | _ => false
  end.

Definition sensing_event (ev : Event) : bool :=
  match ev with
  | SerialPrint _ | SerialPrintInt _ | SerialPrintlnInt _ | SerialPrintFloat _
  | AnalogRead _ _ | DigitalRead _ _ | MpuGetEvent _ _ _ => true
  | Delay ms => ms =? 50
  | _ => false
  end.

(** ** The connectivity the sketch has observed

    The sketch keeps no connectivity variable: what it knows of the link is
    the answer to its latest [WiFi.status()], what it knows of the session is
    the answer to its latest [mqttClient.connected()] or
    [mqttClient.connect()].  A connect attempt is one entry of the record, so
    the specification's Connecting state is the duration of that call. *)
Fixpoint link_up (l : list Event) : bool :=
  match l with
  | [] => false
  | WiFiStatus r :: _ => r =? WL_CONNECTED
  | _ :: older => link_up older
  end.

Definition is_session (ev : Event) : bool :=
  is_MqttConnected ev || is_MqttConnect ev.

Fixpoint session_connected (l : list Event) : bool :=
  match l with
  | [] => false
  | MqttConnected r :: _ => r
  | MqttConnect _ r :: _ => r
  | _ :: older => session_connected older
  end.

(** Every send in [l] was made with the session last observed connected. *)
Fixpoint publishes_connected (l : list Event) : bool :=
  match l with
  | [] => true
  | ev :: older =>
      (if is_MqttPublish ev then session_connected older else true)
      && publishes_connected older
  end.

(** Every session poll or connect attempt in [l] was made with the link last
    observed up. *)
Fixpoint session_under_link (l : list Event) : bool :=
  match l with
  | [] => true
  | ev :: older =>
      (if is_session ev then link_up older else true)
      && session_under_link older
  end.

(** ** Sends happen with the session observed connected *)

(** Since the record was [base]: every send was made with the session last
    observed connected ([clean_since]), and the session is observed connected
    now ([ready_since]). *)
Definition clean_since (base : list Event) (s : State) : Prop :=
  exists new, log s = new ++ base /\ publishes_connected new = true.

Definition ready_since (base : list Event) (s : State) : Prop :=
  exists new, log s = new ++ base /\ publishes_connected new = true /\
              session_connected new = true.

Definition no_send (ev : Event) : bool := negb (is_MqttPublish ev).
Definition no_session_call (ev : Event) : bool :=
  negb (is_MqttPublish ev) && negb (is_session ev).

(** ** Session calls happen with the link observed up *)

Definition linked (s : State) : Prop :=
  link_up (log s) = true /\ session_under_link (log s) = true.

(** *** The connectivity states the sketch passes through *)

Definition WL_CONNECTION_LOST : Z := 5.

(** The link is observed up at start-up, lost at the first pass through
    [loop] and back at the next poll; the MQTT client reports its session as
    connected throughout. *)
Definition link_drop : Hardware :=
  {| hw_wifi_status := fun k => if (k =? 1)%nat then WL_CONNECTION_LOST
                                else WL_CONNECTED;
     hw_mqtt_connected := fun k => negb (k =? 0)%nat;
     hw_mqtt_connect := fun _ => true;
     hw_mqtt_state := fun _ => 0;
     hw_mqtt_publish := fun _ => true;
     hw_millis := fun k => 100 * Z.of_nat k;
     hw_analogRead := fun _ _ => 1000;
     hw_digitalRead := fun _ _ => LOW;
     hw_mpu_begin := true;
     hw_mpu_getEvent := fun _ => (S754_zero false, S754_zero false, gravity) |}.

Definition is_connectivity (ev : Event) : bool :=
  is_WiFiStatus ev || is_session ev.

(** In every state passed through, the session is observed connected only
    while the link is observed up. *)
Fixpoint connected_only_when_up (l : list Event) : bool :=
  match l with
  | [] => true
  | _ :: older =>
      implb (session_connected l) (link_up l) && connected_only_when_up older
  end.

(** The first session observation of a chronological list of calls. *)
Fixpoint next_session (future : list Event) : option bool :=
  match future with
  | [] => None
  | MqttConnected r :: _ => Some r
  | MqttConnect _ r :: _ => Some r
  | _ :: rest => next_session rest
  end.

(** Whenever a link poll finds the link down while the session is observed
    connected ([sess]), the next session observation is "disconnected". *)
Fixpoint loss_disconnects (sess : bool) (h : list Event) : bool :=
  match h with
  | [] => true
  | WiFiStatus r :: rest =>
      (if sess && negb (r =? WL_CONNECTED)
       then match next_session rest with Some true => false | _ => true end
       else true)
      && loss_disconnects sess rest
  | MqttConnected r :: rest => loss_disconnects r rest
  | MqttConnect _ r :: rest => loss_disconnects r rest
  | _ :: rest => loss_disconnects sess rest
  end.

(** ** Retry rounds of the connection loops *)

(** The wait of a link retry round (line 94) and of a session retry round
    (line 114). *)
Definition is_link_wait (ev : Event) : bool :=
  match ev with Delay ms => ms =? 500 | _ => false end.
Definition is_backoff (ev : Event) : bool :=
  match ev with Delay ms => ms =? 2000 | _ => false end.

(** Connect attempts refused among the [n] attempts that follow the first
    [k]. *)
Fixpoint refusals (hw : Hardware) (k n : nat) : nat :=
  match n with
  | O => O
  | S n' => ((if hw_mqtt_connect hw k then 0 else 1) + refusals hw (S k) n')%nat
  end.

(** The session is lost after start-up and the broker refuses the next two
    connect attempts. *)
Definition broker_refuses_twice : Hardware :=
  {| hw_wifi_status := fun _ => WL_CONNECTED;
     hw_mqtt_connected := fun k => (k =? 1)%nat || (6 <=? k)%nat;
     hw_mqtt_connect := fun k => negb ((k =? 1)%nat || (k =? 2)%nat);
     hw_mqtt_state := fun _ => -2;
     hw_mqtt_publish := fun _ => true;
     hw_millis := fun k => 100 * Z.of_nat k;
     hw_analogRead := fun _ _ => 1000;
     hw_digitalRead := fun _ _ => LOW;
     hw_mpu_begin := true;
     hw_mpu_getEvent := fun _ => (S754_zero false, S754_zero false, gravity) |}.

Definition after_setup (hw : Hardware) : State :=
  final_state (setup 2 hw initial_state).

(** ** One pass through [loop], once the connectivity checks have returned *)

Definition connectivity_event (ev : Event) : bool :=
  wifi_event ev || mqtt_event ev.

(** ** Extension of the record by a whole pass *)

Definition may (P : Event -> bool) {A} (m : M A) : Prop :=
  forall hw s, grows P s (final_state (m hw s)).

Definition any_event (ev : Event) : bool := true.

(** The broker accepts the session but refuses every send. *)
Definition refusing_sends : Hardware :=
  {| hw_wifi_status := fun _ => WL_CONNECTED;
     hw_mqtt_connected := fun _ => true;
     hw_mqtt_connect := fun _ => true;
     hw_mqtt_state := fun _ => 0;
     hw_mqtt_publish := fun _ => false;
     hw_millis := fun k => 600 * Z.of_nat (S k);
     hw_analogRead := fun _ _ => 100;
     hw_digitalRead := fun _ _ => HIGH;
     hw_mpu_begin := true;
     hw_mpu_getEvent := fun _ => (S754_zero false, S754_zero false, gravity) |}.

(** ** Every payload ever sent *)

(** A send on the fixed topic with one of the four payloads; any entry that
    is not a send. *)
Definition known_send (ev : Event) : bool :=
  match ev with
  | MqttPublish topic payload _ =>
      String.eqb topic mqttTopic && existsb (String.eqb payload) payloads
  | _ => true
  end.

(** ** Definitions for the further properties *)

(** The frame with the acceleration along x negated: the hand tilted the
    other way. *)
Definition mirror (f : SensorFrame) : SensorFrame :=
  {| flex1 := flex1 f; flex2 := flex2 f;
     accelX := SFopp (accelX f); accelY := accelY f; accelZ := accelZ f;
     touch1 := touch1 f; touch2 := touch2 f |}.

(** Left for Right and Right for Left. *)
Definition swap_tilt (g : Z) : Z :=
  if g =? GESTURE_LEFT then GESTURE_RIGHT
  else if g =? GESTURE_RIGHT then GESTURE_LEFT
  else g.

(** An acceleration that is not a number, or a zero of either sign. *)
Definition nan_or_zero (x : spec_float) : bool :=
  match x with
  | S754_nan | S754_zero _ => true
  | _ => false
  end.

(** Two frames the chain of line 160 cannot tell apart: the same flex
    readings and acceleration along x, and touch channels that are HIGH on
    the same side. *)
Definition same_inputs (f f' : SensorFrame) : Prop :=
  flex1 f = flex1 f' /\ flex2 f = flex2 f' /\ accelX f = accelX f' /\
  (touch1 f =? HIGH) = (touch1 f' =? HIGH) /\
  (touch2 f =? HIGH) = (touch2 f' =? HIGH).

(** The time spent in [delay], in milliseconds, over a record. *)
Fixpoint total_delay (l : list Event) : Z :=
  match l with
  | [] => 0
  | Delay ms :: older => ms + total_delay older
  | _ :: older => total_delay older
  end.

(** The calls that reach a sensor. *)
Definition is_sensor_read (ev : Event) : bool :=
  is_AnalogRead ev || is_DigitalRead ev || is_MpuGetEvent ev.

(** The value of an upper-case hexadecimal digit. *)
Definition hex_digit_value (c : ascii) : option Z :=
  let n := Z.of_N (N_of_ascii c) in
  if (48 <=? n) && (n <=? 57) then Some (n - 48)
  else if (65 <=? n) && (n <=? 70) then Some (n - 55)
  else None.

(** The number a string of upper-case hexadecimal digits denotes, read after
    the digits of [acc]. *)
Fixpoint hex_value_from (acc : Z) (s : string) : option Z :=
  match s with
  | EmptyString => Some acc
  | String c rest =>
      match hex_digit_value c with
      | Some d => hex_value_from (16 * acc + d) rest
      | None => None
      end
  end.

(** The code a payload of the form "0x..." denotes. *)
Definition payload_code (payload : string) : option Z :=
  match payload with
  | String "0" (String "x" digits) =>
      match digits with
      | EmptyString => None
      | _ => hex_value_from 0 digits
      end
  | _ => None
  end.

Definition is_WiFiBegin (ev : Event) : bool :=
  match ev with WiFiBegin _ _ => true | _ => false end.

(** The entries [setup] can add. *)
Definition setup_event (ev : Event) : bool :=
  wifi_event ev || mqtt_event ev ||
  match ev with
  | SerialBegin _ | MqttSetServer _ _ | MpuBegin _
  | MpuSetAccelerometerRange _ | MpuSetGyroRange _
  | MpuSetFilterBandwidth _ => true
  | _ => false
  end.

(** The entries the loop of line 93 can add. *)
Definition wifi_wait_event (ev : Event) : bool :=
  match ev with
  | SerialPrint _ | WiFiStatus _ => true
  | Delay ms => ms =? 500
  | _ => false
  end.

(** Link and session come up at once, but the inertial sensor is missing. *)
Definition no_sensor : Hardware :=
  {| hw_wifi_status := fun _ => WL_CONNECTED;
     hw_mqtt_connected := fun _ => true;
     hw_mqtt_connect := fun _ => true;
     hw_mqtt_state := fun _ => 0;
     hw_mqtt_publish := fun _ => true;
     hw_millis := fun k => 600 * Z.of_nat (S k);
     hw_analogRead := fun _ _ => 100;
     hw_digitalRead := fun _ _ => HIGH;
     hw_mpu_begin := false;
     hw_mpu_getEvent := fun _ => (S754_zero false, S754_zero false, gravity) |}.

(** The link is up, the broker never accepts the session. *)
Definition session_never_up : Hardware :=
  {| hw_wifi_status := fun _ => WL_CONNECTED;
     hw_mqtt_connected := fun _ => false;
     hw_mqtt_connect := fun _ => false;
     hw_mqtt_state := fun _ => -2;
     hw_mqtt_publish := fun _ => false;
     hw_millis := fun k => 600 * Z.of_nat (S k);
     hw_analogRead := fun _ _ => 100;
     hw_digitalRead := fun _ _ => HIGH;
     hw_mpu_begin := true;
     hw_mpu_getEvent := fun _ => (S754_zero false, S754_zero false, gravity) |}.

(** [lastReadTime] is 0 or one of the clock readings the record holds. *)
Definition time_is_a_reading (s : State) : Prop :=
  0 <= lastReadTime s < 2 ^ 32 /\
  (lastReadTime s = 0 \/ In (Millis (lastReadTime s)) (log s)).

(** * Properties *)

(** ** The guards *)

Lemma fist_guard_iff fist_max f :
  fist_guard fist_max f = true <->
  flex1 f < fist_max /\ flex2 f < fist_max /\ touch1 f = HIGH.
Proof.
  unfold fist_guard.
  rewrite !andb_true_iff, !Z.ltb_lt, Z.eqb_eq. tauto.
Qed.

Lemma open_guard_iff open_min f :
  open_guard open_min f = true <->
  flex1 f > open_min /\ flex2 f > open_min /\ touch2 f = HIGH.
Proof.
  unfold open_guard.
  rewrite !andb_true_iff, !Z.ltb_lt, Z.eqb_eq. lia.
Qed.





Lemma not_true_false (b : bool) : ~ b = true <-> b = false.
Proof. destruct b; intuition congruence. Qed.

(** [detectGesture] always returns, and what it returns is the decision taken
    on the frame it has just read. *)
Lemma detectGesture_returns hw s :
  returned (detectGesture hw s) = Some (classify (frame_read hw s)).
Proof.
  unfold detectGesture, frame_read, debounced, debounceTouchSensor,
    readFlexSensor, readMPU6050, analogRead, digitalRead, mpu_getEvent,
    delay, bind, ask, emit, ret.
  cbn.
  destruct (_ =? _); cbn; destruct (_ =? _); reflexivity.
Qed.

(** ** The classifier *)

Ltac split_guards f :=
  unfold classify, GESTURE_FIST, GESTURE_OPEN_HAND, GESTURE_LEFT, GESTURE_RIGHT;
  destruct (fist_guard 500 f), (open_guard 2000 f), (left_guard f),
    (right_guard f).



(** The scenarios of the specification, and the edges of the comparisons. *)
Example scenario_fist :
  classify (at_rest 100 100 (S754_zero false) HIGH LOW) = GESTURE_FIST /\
  gesture_message GESTURE_FIST = "0x01".
Proof. split; reflexivity. Qed.

Example scenario_open_hand :
  classify (at_rest 3000 3000 (S754_zero false) LOW HIGH) = GESTURE_OPEN_HAND /\
  gesture_message GESTURE_OPEN_HAND = "0x02".
Proof. split; reflexivity. Qed.

Example scenario_left :
  classify (at_rest 1000 1000 minus_six LOW LOW) = GESTURE_LEFT /\
  gesture_message GESTURE_LEFT = "0x03".
Proof. split; reflexivity. Qed.

Example scenario_none :
  classify (at_rest 1000 1000 (S754_zero false) LOW LOW) = 0.
Proof. reflexivity. Qed.

Example boundary_fist_max :
  classify (at_rest 500 100 (S754_zero false) HIGH LOW) = 0.
Proof. reflexivity. Qed.

Example boundary_left_threshold :
  classify (at_rest 1000 1000 minus_five LOW LOW) = 0.
Proof. reflexivity. Qed.

Example not_a_number_is_no_tilt :
  classify (at_rest 1000 1000 S754_nan LOW LOW) = 0.
Proof. reflexivity. Qed.

(** C8, as stated, fails: a fist held while the hand is tilted left is within
    the sensor ranges, the thresholds are the sketch's (500 < 2000), and the
    guards of rule 1 and of rule 3 both hold. *)
Lemma tilted_fist_two_guards :
  in_sensor_range tilted_fist = true /\
  500 < 2000 /\
  fist_guard 500 tilted_fist = true /\
  left_guard tilted_fist = true /\
  at_most_one_guard 500 2000 tilted_fist = false.
Proof. repeat split. Qed.

(** C8, amended: the two flex rules exclude each other for every pair of
    thresholds with [fist_max < open_min], and the two tilt rules exclude each
    other; so at most one flex guard and at most one tilt guard hold on any
    frame. *)
Theorem guards_exclusive_within_kind (fist_max open_min : Z) (f : SensorFrame) :
  fist_max < open_min ->
  fist_guard fist_max f && open_guard open_min f = false /\
  left_guard f && right_guard f = false /\
  (count_true (guards_of fist_max open_min f) <= 2)%nat.
Proof.
  intro Hlt.
  assert (Hflex : fist_guard fist_max f && open_guard open_min f = false).
  { apply not_true_false. rewrite andb_true_iff, fist_guard_iff, open_guard_iff.
    lia. }
  assert (Htilt : left_guard f && right_guard f = false).
  { unfold left_guard, right_guard.
    destruct (float_to_double (accelX f)) as [sg | sg | | sg m e];
      try (destruct sg; reflexivity); try reflexivity.
    destruct sg; [apply andb_false_intro2 | apply andb_false_intro1];
      reflexivity. }
  repeat split; try assumption.
  unfold guards_of, count_true.
  destruct (fist_guard fist_max f), (open_guard open_min f); try discriminate;
    destruct (left_guard f), (right_guard f); try discriminate; cbn; lia.
Qed.

Lemma guards_exclusive_within_kind_witness :
  fist_guard 500 tilted_fist && open_guard 2000 tilted_fist = false /\
  left_guard tilted_fist && right_guard tilted_fist = false /\
  (count_true (guards_of 500 2000 tilted_fist) <= 2)%nat.
Proof. apply (guards_exclusive_within_kind 500 2000 tilted_fist). lia. Defined.

(** ** Gesture codes and their payload *)

Lemma classify_range f :
  classify f = 0 \/ classify f = GESTURE_FIST \/
  classify f = GESTURE_OPEN_HAND \/ classify f = GESTURE_LEFT \/
  classify f = GESTURE_RIGHT.
Proof. split_guards f; tauto. Qed.

Lemma payload_of_code g :
  g = GESTURE_FIST \/ g = GESTURE_OPEN_HAND \/ g = GESTURE_LEFT \/
  g = GESTURE_RIGHT ->
  In (format_gesture g) payloads /\
  gesture_message g = format_gesture g /\
  String.length (format_gesture g) = 4%nat.
Proof.
  intros [-> | [-> | [-> | ->]]]; cbn; repeat split; tauto.
Qed.

Lemma publishGesture_run g hw s :
  let ok := hw_mqtt_publish hw (calls is_MqttPublish s) in
  publishGesture g hw s =
  Done tt {| lastReadTime := lastReadTime s;
             log := publish_report (gesture_message g) ok ++
                    MqttPublish mqttTopic (gesture_message g) ok :: log s |}.
Proof.
  unfold publishGesture, mqttClient_publish, bind, ask. cbn.
  destruct (hw_mqtt_publish hw (calls is_MqttPublish s)); reflexivity.
Qed.

(** C3: the four gesture codes are rendered as "0x01" .. "0x04" (four
    characters, upper-case hexadecimal, zero-padded), and the rendered string
    is the payload of the one send [publishGesture] makes, on the topic
    [mqttTopic]. *)
Theorem publishGesture_payload (hw : Hardware) (s : State) :
  gesture_message GESTURE_FIST = "0x01" /\
  gesture_message GESTURE_OPEN_HAND = "0x02" /\
  gesture_message GESTURE_LEFT = "0x03" /\
  gesture_message GESTURE_RIGHT = "0x04" /\
  forall g,
    In g [GESTURE_FIST; GESTURE_OPEN_HAND; GESTURE_LEFT; GESTURE_RIGHT] ->
    String.length (gesture_message g) = 4%nat /\
    exists ok report,
      log (final_state (publishGesture g hw s)) =
        report ++ MqttPublish mqttTopic (gesture_message g) ok :: log s /\
      existsb is_MqttPublish report = false.
Proof.
  repeat split; try reflexivity.
  - destruct H as [<- | [<- | [<- | [<- | []]]]]; reflexivity.
  - rewrite publishGesture_run. cbn.
    exists (hw_mqtt_publish hw (calls is_MqttPublish s)).
    eexists; split; [reflexivity | ].
    destruct (hw_mqtt_publish hw (calls is_MqttPublish s)); reflexivity.
Qed.

Lemma publishGesture_payload_witness :
  String.length (gesture_message GESTURE_LEFT) = 4%nat /\
  gesture_message GESTURE_LEFT = "0x03".
Proof.
  split.
  - apply (proj2 (proj2 (proj2 (proj2
             (publishGesture_payload
                (mkHardware (fun _ => 3) (fun _ => true) (fun _ => true)
                   (fun _ => 0) (fun _ => true) (fun _ => 0) (fun _ _ => 0)
                   (fun _ _ => 0) true
                   (fun _ => (S754_zero false, S754_zero false, S754_zero false)))
                initial_state)))) GESTURE_LEFT).
    cbn. tauto.
  - reflexivity.
Defined.

(** ** The debounce *)

Lemma debounceTouchSensor_run pin hw s :
  let k := calls is_DigitalRead s in
  let first := hw_digitalRead hw pin k in
  let second := hw_digitalRead hw pin (S k) in
  debounceTouchSensor pin hw s =
  Done (debounced first second)
       {| lastReadTime := lastReadTime s;
          log := DigitalRead pin second :: Delay 50 :: DigitalRead pin first
                   :: log s |}.
Proof.
  unfold debounceTouchSensor, debounced, digitalRead, delay, bind, ask, emit,
    ret.
  cbn. destruct (_ =? _); reflexivity.
Qed.

(** C2: the debounce takes two reads of the pin with a 50 ms wait between
    them; equal reads give their common value, different reads give LOW
    (inactive), which is not the active level. *)
Theorem debounce_two_reads_agree (pin : Z) (hw : Hardware) (s : State) :
  let k := calls is_DigitalRead s in
  let first := hw_digitalRead hw pin k in
  let second := hw_digitalRead hw pin (S k) in
  let r := debounceTouchSensor pin hw s in
  history (final_state r) =
    history s ++ [DigitalRead pin first; Delay 50; DigitalRead pin second] /\
  (first = second -> returned r = Some first) /\
  (first <> second -> returned r = Some LOW /\ LOW <> HIGH).
Proof.
  cbn zeta. rewrite debounceTouchSensor_run. unfold history, debounced. cbn.
  repeat split.
  - rewrite <- !app_assoc. reflexivity.
  - intros ->. rewrite Z.eqb_refl. reflexivity.
  - apply not_eq_sym in H. apply Z.eqb_neq in H. rewrite H. reflexivity.
  - discriminate.
Qed.

Lemma debounce_two_reads_agree_witness :
  returned (debounceTouchSensor TOUCH_SENSOR_1_PIN bouncing_pin initial_state)
    = Some LOW /\ LOW <> HIGH.
Proof.
  apply (debounce_two_reads_agree TOUCH_SENSOR_1_PIN bouncing_pin initial_state).
  cbn. discriminate.
Defined.

(** ** The sampling interval test *)

Lemma interval_elapsed_iff cur last :
  interval_elapsed cur last = true <-> 500 <= (cur - last) mod 2 ^ 32.
Proof. unfold interval_elapsed, readInterval, wrap32. apply Z.leb_le. Qed.

Lemma interval_elapsed_uptime t_last t_now :
  0 <= t_now - t_last < 2 ^ 32 ->
  (interval_elapsed (wrap32 t_now) (wrap32 t_last) = true <->
   500 <= t_now - t_last).
Proof.
  intro Hd. rewrite interval_elapsed_iff. unfold wrap32.
  rewrite <- Zminus_mod, Z.mod_small by exact Hd. reflexivity.
Qed.

(** ** Framing lemmas *)

Lemma quiet_refl P s : quiet P s s.
Proof. split; [reflexivity | exists []; split; reflexivity]. Qed.

Lemma quiet_trans P s1 s2 s3 : quiet P s1 s2 -> quiet P s2 s3 -> quiet P s1 s3.
Proof.
  intros [T1 (n1 & L1 & F1)] [T2 (n2 & L2 & F2)]. split; [congruence | ].
  exists (n2 ++ n1). rewrite L2, L1, app_assoc, forallb_app, F1, F2. auto.
Qed.

Lemma quiet_push P ev s : P ev = true -> quiet P s (push ev s).
Proof.
  intro H. split; [reflexivity | ]. exists [ev]. cbn. rewrite H. auto.
Qed.

Lemma quiet_weaken (P Q : Event -> bool) s s' :
  (forall ev, P ev = true -> Q ev = true) -> quiet P s s' -> quiet Q s s'.
Proof.
  intros HPQ [T (n & L & F)]. split; [exact T | ]. exists n. split; [exact L | ].
  rewrite forallb_forall in *. auto.
Qed.

Lemma filter_none {A} (k : A -> bool) (l : list A) :
  forallb (fun x => negb (k x)) l = true -> filter k l = [].
Proof.
  induction l as [| x l IH]; cbn; [reflexivity | ].
  rewrite andb_true_iff, negb_true_iff. intros [-> H]. auto.
Qed.

(** Entries of a kind that [P] excludes are not counted twice. *)
Lemma quiet_calls (P kind : Event -> bool) s s' :
  (forall ev, P ev = true -> kind ev = false) ->
  quiet P s s' -> calls kind s' = calls kind s.
Proof.
  intros HP [_ (n & L & F)]. unfold calls. rewrite L, filter_app.
  rewrite (filter_none kind n); [reflexivity | ].
  rewrite forallb_forall in *. intros x Hx. rewrite (HP x); auto.
Qed.

Section Only.
Variable P : Event -> bool.

Lemma only_ret {A} (a : A) : only P (ret a).
Proof. intros hw s. apply quiet_refl. Qed.

Lemma only_halt {A} : only P (@halt A).
Proof. intros hw s. apply quiet_refl. Qed.

Lemma only_emit ev : P ev = true -> only P (emit ev).
Proof. intros H hw s. apply quiet_push, H. Qed.

Lemma only_ask {A} kind (answer : Hardware -> nat -> A) record :
  (forall a, P (record a) = true) -> only P (ask kind answer record).
Proof. intros H hw s. apply quiet_push, H. Qed.

Lemma only_bind {A B} (m : M A) (k : A -> M B) :
  only P m -> (forall a, only P (k a)) -> only P (bind m k).
Proof.
  intros Hm Hk hw s. unfold bind. specialize (Hm hw s).
  destruct (m hw s) as [a s1 | s1]; cbn in Hm; [ | exact Hm].
  eapply quiet_trans; [exact Hm | apply Hk].
Qed.

Lemma only_while fuel cond body :
  only P cond -> only P body -> only P (while fuel cond body).
Proof.
  intros Hc Hb. induction fuel as [| fuel IH]; cbn [while].
  - intros hw s. apply quiet_refl.
  - apply only_bind; [exact Hc | ]. intros [|].
    + apply only_bind; [exact Hb | intros _; exact IH].
    + apply only_ret.
Qed.
End Only.

Lemma only_weaken (P Q : Event -> bool) {A} (m : M A) :
  (forall ev, P ev = true -> Q ev = true) -> only P m -> only Q m.
Proof. intros HPQ H hw s. eapply quiet_weaken; [exact HPQ | apply H]. Qed.

Ltac only_step :=
  first
    [ apply only_ret
    | apply only_halt
    | apply only_emit; reflexivity
    | apply only_ask; intros; reflexivity
    | apply only_while
    | apply only_bind; [ | intros ]
    | match goal with
      | |- only _ (if ?b then _ else _) => destruct b
      end ].

Lemma connectToWiFi_only fuel : only wifi_event (connectToWiFi fuel).
Proof.
  unfold connectToWiFi, wifi_down, wifi_wait, Serial_print, Serial_println,
    WiFi_begin, WiFi_status, delay.
  repeat only_step.
Qed.

Lemma ensureWiFiConnection_only fuel :
  only wifi_event (ensureWiFiConnection fuel).
Proof.
  unfold ensureWiFiConnection, WiFi_status.
  repeat only_step.
Qed.

Lemma connectToMQTT_only fuel : only mqtt_event (connectToMQTT fuel).
Proof.
  unfold connectToMQTT, mqtt_down, mqtt_attempt, Serial_print, Serial_println,
    mqttClient_connected, mqttClient_connect, mqttClient_state, delay.
  repeat only_step.
Qed.

Lemma ensureMQTTConnection_only fuel :
  only mqtt_event (ensureMQTTConnection fuel).
Proof.
  unfold ensureMQTTConnection, mqttClient_connected.
  repeat only_step.
Qed.

Lemma detectGesture_only : only sensing_event detectGesture.
Proof.
  unfold detectGesture, debugSensors, debounceTouchSensor, readFlexSensor,
    readMPU6050, analogRead, digitalRead, mpu_getEvent, Serial_print, delay.
  repeat only_step.
Qed.

Lemma publishGesture_only g :
  only (fun ev => negb (is_WiFiStatus ev)) (publishGesture g).
Proof.
  unfold publishGesture, mqttClient_publish, Serial_print, Serial_println.
  repeat only_step.
Qed.

(** A [while] loop that returns has just evaluated its condition to false. *)
Lemma while_done P fuel cond body hw s s' :
  only P cond -> only P body ->
  while fuel cond body hw s = Done tt s' ->
  exists s0, quiet P s s0 /\ cond hw s0 = Done false s'.
Proof.
  intros Hc Hb. revert s. induction fuel as [| fuel IH]; intros s; cbn [while].
  - discriminate.
  - unfold bind at 1. destruct (cond hw s) as [c s1 | s1] eqn:Ec; [ | discriminate].
    destruct c.
    + unfold bind at 1.
      destruct (body hw s1) as [[] s2 | s2] eqn:Eb; [ | discriminate].
      intro H. destruct (IH _ H) as (s0 & Q & E). exists s0. split; [ | exact E].
      eapply quiet_trans; [ | exact Q].
      eapply quiet_trans.
      * pose proof (Hc hw s) as Q1. rewrite Ec in Q1. exact Q1.
      * pose proof (Hb hw s1) as Q2. rewrite Eb in Q2. exact Q2.
    + unfold ret. intro H. injection H as <-. exists s. split; [apply quiet_refl | exact Ec].
Qed.

(** ** The observed connectivity along an extended record *)

Lemma link_up_app new old :
  forallb (fun ev => negb (is_WiFiStatus ev)) new = true ->
  link_up (new ++ old) = link_up old.
Proof.
  induction new as [| ev new IH]; cbn; [reflexivity | ].
  rewrite andb_true_iff. intros [H1 H2]. destruct ev; try discriminate; auto.
Qed.

Lemma session_connected_app new old :
  forallb (fun ev => negb (is_session ev)) new = true ->
  session_connected (new ++ old) = session_connected old.
Proof.
  induction new as [| ev new IH]; cbn; [reflexivity | ].
  rewrite andb_true_iff. intros [H1 H2]. destruct ev; try discriminate; auto.
Qed.

Lemma session_connected_mono new old :
  session_connected new = true -> session_connected (new ++ old) = true.
Proof.
  induction new as [| ev new IH]; cbn; [discriminate | ].
  destruct ev; auto.
Qed.

Lemma publishes_connected_app new old :
  publishes_connected new = true -> publishes_connected old = true ->
  publishes_connected (new ++ old) = true.
Proof.
  induction new as [| ev new IH]; cbn; [auto | ].
  rewrite !andb_true_iff. intros [H1 H2] Ho. split; [ | auto].
  destruct (is_MqttPublish ev); [ | reflexivity].
  apply session_connected_mono, H1.
Qed.

Lemma publishes_connected_quiet new :
  forallb (fun ev => negb (is_MqttPublish ev)) new = true ->
  publishes_connected new = true.
Proof.
  induction new as [| ev new IH]; cbn; [reflexivity | ].
  rewrite andb_true_iff, negb_true_iff. intros [-> H]. cbn. auto.
Qed.

Lemma session_under_link_app new old :
  forallb (fun ev => negb (is_WiFiStatus ev)) new = true ->
  link_up old = true -> session_under_link old = true ->
  session_under_link (new ++ old) = true.
Proof.
  intros Hn Hl Ho. induction new as [| ev new IH]; cbn; [exact Ho | ].
  cbn in Hn. rewrite andb_true_iff in Hn. destruct Hn as [H1 H2].
  rewrite (IH H2), andb_true_r.
  destruct (is_session ev); [ | reflexivity].
  rewrite link_up_app; assumption.
Qed.

Lemma session_under_link_quiet new old :
  forallb (fun ev => negb (is_session ev)) new = true ->
  session_under_link old = true ->
  session_under_link (new ++ old) = true.
Proof.
  intros Hn Ho. induction new as [| ev new IH]; cbn; [exact Ho | ].
  cbn in Hn. rewrite andb_true_iff, negb_true_iff in Hn. destruct Hn as [-> H2].
  cbn. auto.
Qed.

(** ** What the connection functions establish when they return *)

Lemma connectToMQTT_done fuel hw s s' :
  connectToMQTT fuel hw s = Done tt s' ->
  exists s0, quiet mqtt_event s s0 /\ s' = push (MqttConnected true) s0.
Proof.
  intro H. unfold connectToMQTT in H.
  apply (while_done mqtt_event) in H.
  - destruct H as (s0 & Q & E). exists s0. split; [exact Q | ].
    unfold mqtt_down, bind, mqttClient_connected, ask, ret in E. cbn in E.
    destruct (hw_mqtt_connected hw (calls is_MqttConnected s0));
      cbn in E; [ | discriminate].
    injection E as <-. reflexivity.
  - unfold mqtt_down, mqttClient_connected. repeat only_step.
  - unfold mqtt_attempt, Serial_print, Serial_println, mqttClient_connect,
      mqttClient_state, delay. repeat only_step.
Qed.

Lemma ensureMQTTConnection_done fuel hw s s' :
  ensureMQTTConnection fuel hw s = Done tt s' ->
  exists s0, quiet mqtt_event s s0 /\ s' = push (MqttConnected true) s0.
Proof.
  unfold ensureMQTTConnection, bind, mqttClient_connected, ask. cbn.
  destruct (hw_mqtt_connected hw (calls is_MqttConnected s)) eqn:E; cbn.
  - unfold ret. intro H. injection H as <-. exists s.
    split; [apply quiet_refl | reflexivity].
  - intro H. apply connectToMQTT_done in H. destruct H as (s0 & Q & ->).
    exists s0. split; [ | reflexivity].
    eapply quiet_trans; [ | exact Q]. apply quiet_push. reflexivity.
Qed.

Lemma connectToWiFi_done fuel hw s s' :
  connectToWiFi fuel hw s = Done tt s' -> link_up (log s') = true.
Proof.
  unfold connectToWiFi, Serial_print, Serial_println, WiFi_begin.
  unfold bind at 1 2 3. unfold emit at 1 2 3.
  unfold bind at 1.
  match goal with
  | |- context [while fuel ?c ?b hw ?s1] =>
      destruct (while fuel c b hw s1) as [[] s2 | s2] eqn:Ew
  end; [ | discriminate].
  apply (while_done wifi_event) in Ew.
  - destruct Ew as (s0 & _ & E). unfold emit. intro H. injection H as <-.
    unfold wifi_down, bind, WiFi_status, ask, ret in E. cbn in E.
    destruct (hw_wifi_status hw (calls is_WiFiStatus s0) =? WL_CONNECTED) eqn:Es;
      cbn in E; [ | discriminate].
    injection E as <-. cbn. exact Es.
  - unfold wifi_down, WiFi_status. repeat only_step.
  - unfold wifi_wait, Serial_print, delay. repeat only_step.
Qed.

Lemma ensureWiFiConnection_done fuel hw s s' :
  ensureWiFiConnection fuel hw s = Done tt s' -> link_up (log s') = true.
Proof.
  unfold ensureWiFiConnection, bind, WiFi_status, ask. cbn.
  destruct (hw_wifi_status hw (calls is_WiFiStatus s) =? WL_CONNECTED) eqn:E; cbn.
  - unfold ret. intro H. injection H as <-. cbn. exact E.
  - apply connectToWiFi_done.
Qed.

(** ** The structure of one pass through [loop] *)

Lemma loop_unfold fuel :
  loop fuel =
  (ensureWiFiConnection fuel ;; ensureMQTTConnection fuel ;; sample_and_publish).
Proof. reflexivity. Qed.

Lemma detectGesture_run hw s :
  exists s', detectGesture hw s = Done (classify (frame_read hw s)) s' /\
             quiet sensing_event s s'.
Proof.
  pose proof (detectGesture_returns hw s) as R.
  pose proof (detectGesture_only hw s) as Q.
  destruct (detectGesture hw s) as [g s' | s']; [ | discriminate].
  injection R as ->. exists s'. split; [reflexivity | exact Q].
Qed.

(** [sample_and_publish] always returns; what it does is decided by the
    interval test. *)
Lemma sample_and_publish_run hw s :
  let cur := wrap32 (hw_millis hw (calls is_Millis s)) in
  let s1 := push (Millis cur) s in
  if interval_elapsed cur (lastReadTime s) then
    let s2 := {| lastReadTime := cur; log := Millis cur :: log s |} in
    exists s3, detectGesture hw s2 = Done (classify (frame_read hw s2)) s3 /\
      quiet sensing_event s2 s3 /\
      sample_and_publish hw s =
        if negb (classify (frame_read hw s2) =? 0)
        then publishGesture (classify (frame_read hw s2)) hw s3
        else Done tt s3
  else sample_and_publish hw s = Done tt s1.
Proof.
  cbv beta zeta delta [sample_and_publish bind millis ask get_lastReadTime
                         set_lastReadTime].
  cbv beta iota. cbn [lastReadTime log push].
  destruct (interval_elapsed _ _); [ | reflexivity].
  match goal with
  | |- context [detectGesture hw ?s2] =>
      destruct (detectGesture_run hw s2) as (s3 & E & Q)
  end.
  exists s3. split; [exact E | split; [exact Q | ]].
  unfold push. cbn [log lastReadTime]. rewrite E.
  destruct (negb _); reflexivity.
Qed.

(** ** Sends happen with the session observed connected *)

Lemma clean_since_start s : clean_since (log s) s.
Proof. exists []. split; reflexivity. Qed.

Lemma clean_quiet base s s' :
  clean_since base s -> quiet no_send s s' -> clean_since base s'.
Proof.
  intros (n & L & C) [_ (n' & L' & F)]. exists (n' ++ n).
  rewrite L', L, app_assoc. split; [reflexivity | ].
  apply publishes_connected_app; [ | exact C].
  apply publishes_connected_quiet, F.
Qed.

Lemma ready_quiet base s s' :
  ready_since base s -> quiet no_session_call s s' -> ready_since base s'.
Proof.
  intros (n & L & C & R) [_ (n' & L' & F)]. exists (n' ++ n).
  rewrite L', L, app_assoc. split; [reflexivity | ].
  assert (F1 : forallb no_send n' = true /\
               forallb (fun ev => negb (is_session ev)) n' = true).
  { rewrite !forallb_forall in *. split; intros ev Hev;
      specialize (F ev Hev); unfold no_session_call in F;
      apply andb_true_iff in F; tauto. }
  destruct F1 as [F1 F2]. split.
  - apply publishes_connected_app; [ | exact C].
    apply publishes_connected_quiet, F1.
  - rewrite session_connected_app; assumption.
Qed.

Lemma ready_clean base s : ready_since base s -> clean_since base s.
Proof. intros (n & L & C & _). exists n. auto. Qed.

Lemma ready_connected base s :
  clean_since base s -> ready_since base (push (MqttConnected true) s).
Proof.
  intros (n & L & C). exists (MqttConnected true :: n). cbn. rewrite L, C. auto.
Qed.

Lemma clean_publish base s g hw :
  ready_since base s -> clean_since base (final_state (publishGesture g hw s)).
Proof.
  intros (n & L & C & R). rewrite publishGesture_run. cbn [final_state log].
  exists (publish_report (gesture_message g)
            (hw_mqtt_publish hw (calls is_MqttPublish s)) ++
          MqttPublish mqttTopic (gesture_message g)
            (hw_mqtt_publish hw (calls is_MqttPublish s)) :: n).
  rewrite L, <- app_assoc. split; [reflexivity | ].
  apply publishes_connected_app.
  - destruct (hw_mqtt_publish hw (calls is_MqttPublish s)); reflexivity.
  - cbn. rewrite R, C. reflexivity.
Qed.

Lemma sample_and_publish_clean base hw s :
  ready_since base s -> clean_since base (final_state (sample_and_publish hw s)).
Proof.
  intro R. pose proof (sample_and_publish_run hw s) as H. cbv zeta in H.
  assert (R1 : forall t, ready_since base
             {| lastReadTime := t;
                log := Millis (wrap32 (hw_millis hw (calls is_Millis s))) :: log s |}).
  { intro t. destruct R as (n & L & C & Rn).
    exists (Millis (wrap32 (hw_millis hw (calls is_Millis s))) :: n).
    cbn. rewrite L, C, Rn. auto. }
  destruct (interval_elapsed _ _).
  - destruct H as (s3 & _ & Q & ->).
    assert (R3 : ready_since base s3).
    { eapply ready_quiet; [apply R1 | ].
      eapply quiet_weaken; [ | exact Q]. intros []; cbn; congruence. }
    destruct (negb _); [apply clean_publish, R3 | apply ready_clean, R3].
  - rewrite H. apply ready_clean. apply (R1 (lastReadTime s)).
Qed.

(** C6: in every pass through [loop], from any state and whatever the
    hardware answers, each send handed to the MQTT client comes after an
    observation of the session as connected made earlier in that same pass,
    with no session call in between. *)
Theorem loop_publishes_connected (fuel : nat) (hw : Hardware) (s : State) :
  exists new,
    log (final_state (loop fuel hw s)) = new ++ log s /\
    publishes_connected new = true.
Proof.
  change (clean_since (log s) (final_state (loop fuel hw s))).
  rewrite loop_unfold. unfold bind at 1.
  pose proof (ensureWiFiConnection_only fuel hw s) as Q1.
  destruct (ensureWiFiConnection fuel hw s) as [[] s1 | s1];
    cbn [final_state] in Q1.
  2:{ eapply clean_quiet; [apply clean_since_start | ].
      eapply quiet_weaken; [ | exact Q1]. intros []; cbn; congruence. }
  assert (C1 : clean_since (log s) s1).
  { eapply clean_quiet; [apply clean_since_start | ].
    eapply quiet_weaken; [ | exact Q1]. intros []; cbn; congruence. }
  unfold bind at 1.
  pose proof (ensureMQTTConnection_only fuel hw s1) as Q2.
  destruct (ensureMQTTConnection fuel hw s1) as [[] s2 | s2] eqn:E2;
    cbn [final_state] in Q2.
  2:{ eapply clean_quiet; [exact C1 | ].
      eapply quiet_weaken; [ | exact Q2]. intros []; cbn; congruence. }
  apply ensureMQTTConnection_done in E2. destruct E2 as (s0 & Q0 & ->).
  apply sample_and_publish_clean, ready_connected.
  eapply clean_quiet; [exact C1 | ].
  eapply quiet_weaken; [ | exact Q0]. intros []; cbn; congruence.
Qed.

(** A pass that does send: the fist of [refusing_sends], right after
    [setup]. *)
Example a_pass_that_sends :
  filter is_session
    (added (after_setup refusing_sends)
       (final_state (loop 1 refusing_sends (after_setup refusing_sends)))) =
    [MqttConnected true] /\
  filter is_MqttPublish
    (added (after_setup refusing_sends)
       (final_state (loop 1 refusing_sends (after_setup refusing_sends)))) =
    [MqttPublish mqttTopic "0x01" false].
Proof. vm_compute. split; reflexivity. Qed.

(** ** Session calls happen with the link observed up *)

Lemma wifi_keeps_discipline s s' :
  quiet wifi_event s s' -> session_under_link (log s) = true ->
  session_under_link (log s') = true.
Proof.
  intros [_ (n & L & F)] H. rewrite L. apply session_under_link_quiet; [ | exact H].
  rewrite forallb_forall in *. intros ev Hev. specialize (F ev Hev).
  destruct ev; cbn in *; congruence.
Qed.

(** Entries that are not a link poll keep a linked state linked. *)
Lemma linked_grows (P : Event -> bool) s s' :
  (forall ev, P ev = true -> is_WiFiStatus ev = false) ->
  grows P s s' -> linked s -> linked s'.
Proof.
  intros HP (n & L & F) [Hl Hs].
  assert (F' : forallb (fun ev => negb (is_WiFiStatus ev)) n = true).
  { rewrite forallb_forall in *. intros ev Hev. rewrite (HP ev); auto. }
  unfold linked. rewrite L. split.
  - rewrite link_up_app; assumption.
  - apply session_under_link_app; assumption.
Qed.

Lemma sample_and_publish_grows hw s :
  grows (fun ev => negb (is_WiFiStatus ev)) s
        (final_state (sample_and_publish hw s)).
Proof.
  pose proof (sample_and_publish_run hw s) as H. cbv zeta in H.
  set (cur := wrap32 (hw_millis hw (calls is_Millis s))) in *.
  destruct (interval_elapsed _ _).
  - destruct H as (s3 & _ & [_ (n3 & L3 & F3)] & ->). cbn [log] in L3.
    assert (G3 : grows (fun ev => negb (is_WiFiStatus ev)) s s3).
    { exists (n3 ++ [Millis cur]). rewrite L3, <- app_assoc.
      split; [reflexivity | ]. rewrite forallb_app. cbn. rewrite andb_true_r.
      rewrite forallb_forall in *. intros ev Hev. specialize (F3 ev Hev).
      destruct ev; cbn in *; congruence. }
    destruct (negb _); [ | exact G3].
    destruct G3 as (n & L & F).
    destruct (publishGesture_only (classify (frame_read hw
                {| lastReadTime := cur; log := Millis cur :: log s |})) hw s3)
      as [_ (n' & L' & F')].
    exists (n' ++ n). rewrite L', L, app_assoc, forallb_app, F, F'. auto.
  - rewrite H. exists [Millis cur]. split; reflexivity.
Qed.

Lemma loop_keeps_discipline fuel hw s :
  session_under_link (log s) = true ->
  session_under_link (log (final_state (loop fuel hw s))) = true.
Proof.
  intro I. rewrite loop_unfold. unfold bind at 1.
  pose proof (ensureWiFiConnection_only fuel hw s) as Q1.
  destruct (ensureWiFiConnection fuel hw s) as [[] s1 | s1] eqn:E1;
    cbn [final_state] in Q1; [ | eapply wifi_keeps_discipline; eassumption].
  assert (L1 : linked s1).
  { split; [eapply ensureWiFiConnection_done; exact E1 | ].
    eapply wifi_keeps_discipline; eassumption. }
  unfold bind at 1.
  pose proof (ensureMQTTConnection_only fuel hw s1) as [_ Q2].
  assert (L2 : linked (final_state (ensureMQTTConnection fuel hw s1))).
  { eapply linked_grows; [ | exact Q2 | exact L1]. intros []; cbn; congruence. }
  destruct (ensureMQTTConnection fuel hw s1) as [[] s2 | s2];
    cbn [final_state] in L2; [ | apply L2].
  eapply linked_grows; [ | apply sample_and_publish_grows | exact L2].
  intros ev. apply negb_true_iff.
Qed.

Lemma loops_keep_discipline n fuel hw s :
  session_under_link (log s) = true ->
  session_under_link (log (final_state (loops n fuel hw s))) = true.
Proof.
  revert s. induction n as [| n IH]; intros s I; cbn [loops]; [exact I | ].
  unfold bind. pose proof (loop_keeps_discipline fuel hw s I) as I1.
  destruct (loop fuel hw s) as [[] s1 | s1]; cbn [final_state] in I1; auto.
Qed.

Lemma setup_keeps_discipline fuel hw s :
  session_under_link (log s) = true ->
  session_under_link (log (final_state (setup fuel hw s))) = true.
Proof.
  intro I. unfold setup. unfold bind at 1, emit at 1.
  set (s0 := push (SerialBegin 115200) s).
  assert (I0 : session_under_link (log s0) = true) by exact I.
  unfold bind at 1.
  pose proof (connectToWiFi_only fuel hw s0) as Q1.
  destruct (connectToWiFi fuel hw s0) as [[] s1 | s1] eqn:E1;
    cbn [final_state] in Q1; [ | eapply wifi_keeps_discipline; eassumption].
  assert (L1 : linked s1).
  { split; [eapply connectToWiFi_done; exact E1 | ].
    eapply wifi_keeps_discipline; eassumption. }
  unfold bind at 1, emit at 1.
  assert (L1' : linked (push (MqttSetServer mqttServer mqttPort) s1)).
  { destruct L1 as [A B]. split; cbn; [exact A | exact B]. }
  unfold bind at 1.
  pose proof (connectToMQTT_only fuel hw
                (push (MqttSetServer mqttServer mqttPort) s1)) as [_ Q2].
  assert (L2 : linked (final_state (connectToMQTT fuel hw
                (push (MqttSetServer mqttServer mqttPort) s1)))).
  { eapply linked_grows; [ | exact Q2 | exact L1']. intros []; cbn; congruence. }
  destruct (connectToMQTT fuel hw _) as [[] s2 | s2];
    cbn [final_state] in L2; [ | apply L2].
  destruct L2 as [_ B].
  unfold bind, mpu_begin, Serial_println, emit, halt, ret.
  destruct (hw_mpu_begin hw); cbn; exact B.
Qed.

(** C4, amended: at every point of every run of the firmware, each session
    poll and each connect attempt - hence each observation of the session as
    connected - was made with the link last observed up; the link check
    returns only with the link observed up, and the session check returns
    only with the session observed connected and does not poll the link. *)
Theorem session_calls_under_link (n fuel : nat) (hw : Hardware) :
  session_under_link
    (log (final_state (firmware n fuel hw initial_state))) = true /\
  (forall s s', ensureWiFiConnection fuel hw s = Done tt s' ->
                link_up (log s') = true) /\
  (forall s s', ensureMQTTConnection fuel hw s = Done tt s' ->
                session_connected (log s') = true /\
                link_up (log s') = link_up (log s)).
Proof.
  split; [ | split].
  - unfold firmware, bind.
    pose proof (setup_keeps_discipline fuel hw initial_state eq_refl) as I.
    destruct (setup fuel hw initial_state) as [[] s1 | s1];
      cbn [final_state] in I; [ | exact I].
    apply loops_keep_discipline, I.
  - intros s s'. apply ensureWiFiConnection_done.
  - intros s s' H. apply ensureMQTTConnection_done in H.
    destruct H as (s0 & [_ (new & L & F)] & ->). cbn. split; [reflexivity | ].
    rewrite L. apply link_up_app.
    rewrite forallb_forall in *. intros ev Hev. specialize (F ev Hev).
    destruct ev; cbn in *; congruence.
Qed.

Lemma session_calls_under_link_witness :
  link_up (log (final_state
                  (ensureWiFiConnection 2 link_drop (after_setup link_drop))))
    = true.
Proof.
  apply (proj1 (proj2 (session_calls_under_link 0 2 link_drop))
           (after_setup link_drop)
           (final_state
              (ensureWiFiConnection 2 link_drop (after_setup link_drop)))).
  reflexivity.
Defined.

(** C4, as stated, fails: with the link lost after start-up, the sketch
    passes through a state with the link observed down and the session
    observed connected, and its next session poll still finds the session
    connected. *)
Lemma link_drop_keeps_session :
  let s := final_state (firmware 1 2 link_drop initial_state) in
  filter is_connectivity (history s) =
    [WiFiStatus WL_CONNECTED; MqttConnected false; MqttConnect "ESP32" true;
     MqttConnected true; WiFiStatus WL_CONNECTION_LOST;
     WiFiStatus WL_CONNECTED; MqttConnected true] /\
  returned (firmware 1 2 link_drop initial_state) = Some tt /\
  connected_only_when_up (log s) = false /\
  loss_disconnects false (history s) = false.
Proof. vm_compute. repeat split. Qed.

(** ** Retry rounds of the connection loops *)

Lemma loop_ensure_ready fuel hw s :
  loop fuel hw s = (ensure_ready fuel ;; sample_and_publish) hw s.
Proof.
  rewrite loop_unfold. unfold ensure_ready, bind.
  destruct (ensureWiFiConnection fuel hw s) as [[] s1 | s1]; reflexivity.
Qed.

Lemma while_true fuel cond body hw s s1 s2 :
  cond hw s = Done true s1 -> body hw s1 = Done tt s2 ->
  while (S fuel) cond body hw s = while fuel cond body hw s2.
Proof. intros Hc Hb. cbn [while]. unfold bind. rewrite Hc, Hb. reflexivity. Qed.

Lemma while_false fuel cond body hw s s1 :
  cond hw s = Done false s1 -> while (S fuel) cond body hw s = Done tt s1.
Proof. intros Hc. cbn [while]. unfold bind. rewrite Hc. reflexivity. Qed.

Lemma mqtt_down_run hw s :
  mqtt_down hw s =
  Done (negb (hw_mqtt_connected hw (calls is_MqttConnected s)))
       (push (MqttConnected (hw_mqtt_connected hw (calls is_MqttConnected s))) s).
Proof. reflexivity. Qed.

Lemma wifi_down_run hw s :
  wifi_down hw s =
  Done (negb (hw_wifi_status hw (calls is_WiFiStatus s) =? WL_CONNECTED))
       (push (WiFiStatus (hw_wifi_status hw (calls is_WiFiStatus s))) s).
Proof. reflexivity. Qed.

(** One connect attempt: a backoff wait if, and only if, it is refused. *)
Lemma mqtt_attempt_run hw s :
  exists s', mqtt_attempt hw s = Done tt s' /\
    calls is_MqttConnected s' = calls is_MqttConnected s /\
    calls is_MqttConnect s' = S (calls is_MqttConnect s) /\
    calls is_backoff s' =
      ((if hw_mqtt_connect hw (calls is_MqttConnect s) then 0 else 1)
       + calls is_backoff s)%nat.
Proof.
  unfold mqtt_attempt, Serial_print, Serial_println,
    mqttClient_connect, mqttClient_state, delay, bind, ask, emit.
  unfold calls in *. cbn.
  destruct (hw_mqtt_connect hw _); cbn;
    (eexists; split; [reflexivity | ]; cbn; auto).
Qed.

Lemma wifi_wait_run hw s :
  exists s', wifi_wait hw s = Done tt s' /\
    calls is_WiFiStatus s' = calls is_WiFiStatus s /\
    calls is_link_wait s' = S (calls is_link_wait s).
Proof. eexists. split; [reflexivity | ]. cbn. auto. Qed.

Lemma connectToMQTT_rounds n : forall hw s fuel,
  (forall i, (i < n)%nat ->
     hw_mqtt_connected hw (calls is_MqttConnected s + i) = false) ->
  hw_mqtt_connected hw (calls is_MqttConnected s + n) = true ->
  ((n < fuel)%nat ->
     exists s', connectToMQTT fuel hw s = Done tt s' /\
       calls is_backoff s' =
         (calls is_backoff s + refusals hw (calls is_MqttConnect s) n)%nat) /\
  ((fuel <= n)%nat -> returned (connectToMQTT fuel hw s) = None).
Proof.
  unfold connectToMQTT.
  induction n as [| n IH]; intros hw s fuel Hp Hup.
  - rewrite Nat.add_0_r in Hup. split; intro Hf.
    + destruct fuel as [| fuel]; [lia | ].
      erewrite while_false by (rewrite mqtt_down_run, Hup; reflexivity).
      eexists. split; [reflexivity | ]. cbn [refusals].
      rewrite Nat.add_0_r. reflexivity.
    + assert (fuel = O) by lia. subst. reflexivity.
  - destruct fuel as [| fuel]; [split; [lia | reflexivity] | ].
    pose proof (Hp O ltac:(lia)) as Hp0. rewrite Nat.add_0_r in Hp0.
    set (s1 := push (MqttConnected false) s).
    assert (Ec : mqtt_down hw s = Done true s1).
    { rewrite mqtt_down_run, Hp0. reflexivity. }
    destruct (mqtt_attempt_run hw s1) as (s2 & Eb & C1 & C2 & C3).
    rewrite (while_true _ _ _ _ _ _ _ Ec Eb).
    assert (D1 : calls is_MqttConnected s2 = S (calls is_MqttConnected s))
      by (rewrite C1; reflexivity).
    assert (D2 : calls is_MqttConnect s2 = S (calls is_MqttConnect s))
      by (rewrite C2; reflexivity).
    change (calls is_MqttConnect s1) with (calls is_MqttConnect s) in C3.
    change (calls is_backoff s1) with (calls is_backoff s) in C3.
    destruct (IH hw s2 fuel) as [I1 I2].
    + intros i Hi. rewrite D1. rewrite <- (Hp (S i)) by lia. f_equal. lia.
    + rewrite D1, <- Hup. f_equal. lia.
    + split; intro Hf.
      * destruct (I1 ltac:(lia)) as (s' & E & C). exists s'.
        split; [exact E | ]. rewrite C, C3, D2. cbn [refusals]. lia.
      * apply I2. lia.
Qed.

Lemma wifi_loop_rounds m : forall hw s fuel,
  (forall i, (i < m)%nat ->
     hw_wifi_status hw (calls is_WiFiStatus s + i) <> WL_CONNECTED) ->
  hw_wifi_status hw (calls is_WiFiStatus s + m) = WL_CONNECTED ->
  ((m < fuel)%nat ->
     exists s', while fuel wifi_down wifi_wait hw s = Done tt s' /\
       calls is_link_wait s' = (calls is_link_wait s + m)%nat) /\
  ((fuel <= m)%nat -> returned (while fuel wifi_down wifi_wait hw s) = None).
Proof.
  induction m as [| m IH]; intros hw s fuel Hp Hup.
  - rewrite Nat.add_0_r in Hup. split; intro Hf.
    + destruct fuel as [| fuel]; [lia | ].
      erewrite while_false by (rewrite wifi_down_run, Hup; reflexivity).
      eexists. split; [reflexivity | ]. rewrite Nat.add_0_r. reflexivity.
    + assert (fuel = O) by lia. subst. reflexivity.
  - destruct fuel as [| fuel]; [split; [lia | reflexivity] | ].
    pose proof (Hp O ltac:(lia)) as Hp0. rewrite Nat.add_0_r in Hp0.
    apply Z.eqb_neq in Hp0.
    set (s1 := push (WiFiStatus (hw_wifi_status hw (calls is_WiFiStatus s))) s).
    assert (Ec : wifi_down hw s = Done true s1).
    { rewrite wifi_down_run, Hp0. reflexivity. }
    destruct (wifi_wait_run hw s1) as (s2 & Eb & C1 & C2).
    rewrite (while_true _ _ _ _ _ _ _ Ec Eb).
    assert (D1 : calls is_WiFiStatus s2 = S (calls is_WiFiStatus s))
      by (rewrite C1; reflexivity).
    assert (D2 : calls is_link_wait s2 = S (calls is_link_wait s))
      by (rewrite C2; reflexivity).
    destruct (IH hw s2 fuel) as [I1 I2].
    + intros i Hi. rewrite D1.
      replace (S (calls is_WiFiStatus s) + i)%nat
        with (calls is_WiFiStatus s + S i)%nat by lia.
      apply Hp. lia.
    + rewrite D1, <- Hup. f_equal. lia.
    + split; intro Hf.
      * destruct (I1 ltac:(lia)) as (s' & E & C). exists s'.
        split; [exact E | ]. rewrite C, D2. lia.
      * apply I2. lia.
Qed.

(** With the link down at the check and at the next [m] polls: [m] waits of
    500 ms, and no return before. *)
Lemma ensureWiFiConnection_rounds m hw s fuel :
  (forall i, (i <= m)%nat ->
     hw_wifi_status hw (calls is_WiFiStatus s + i) <> WL_CONNECTED) ->
  hw_wifi_status hw (calls is_WiFiStatus s + S m) = WL_CONNECTED ->
  ((m < fuel)%nat ->
     exists s', ensureWiFiConnection fuel hw s = Done tt s' /\
       calls is_link_wait s' = (calls is_link_wait s + m)%nat) /\
  ((fuel <= m)%nat -> returned (ensureWiFiConnection fuel hw s) = None).
Proof.
  intros Hp Hup.
  pose proof (Hp O ltac:(lia)) as Hp0. rewrite Nat.add_0_r in Hp0.
  apply Z.eqb_neq in Hp0.
  set (s1 := push (WiFiBegin ssid password)
               (push (SerialPrintln ssid)
                  (push (SerialPrint "Connecting to Wi-Fi: ")
                     (push (WiFiStatus
                              (hw_wifi_status hw (calls is_WiFiStatus s))) s)))).
  assert (E : ensureWiFiConnection fuel hw s =
              (while fuel wifi_down wifi_wait ;;
               Serial_println (newline ++ "Wi-Fi Connected.")%string) hw s1).
  { unfold ensureWiFiConnection, bind at 1, WiFi_status, ask.
    cbv beta zeta. rewrite Hp0. reflexivity. }
  rewrite E. clear E.
  assert (D1 : calls is_WiFiStatus s1 = S (calls is_WiFiStatus s)) by reflexivity.
  assert (D2 : calls is_link_wait s1 = calls is_link_wait s) by reflexivity.
  destruct (wifi_loop_rounds m hw s1 fuel) as [I1 I2].
  - intros i Hi. rewrite D1.
    replace (S (calls is_WiFiStatus s) + i)%nat
      with (calls is_WiFiStatus s + S i)%nat by lia.
    apply Hp. lia.
  - rewrite D1, <- Hup. f_equal. lia.
  - split; intro Hf.
    + destruct (I1 Hf) as (s' & Ew & C). unfold bind. rewrite Ew.
      eexists. split; [reflexivity | ]. rewrite <- D2, <- C. reflexivity.
    + specialize (I2 Hf). unfold bind.
      destruct (while fuel wifi_down wifi_wait hw s1); [discriminate | reflexivity].
Qed.

(** With the session down at the check and at the next [n] polls: [n]
    connect attempts, a backoff wait of 2000 ms after each refused one, and
    no return before. *)
Lemma ensureMQTTConnection_rounds n hw s fuel :
  (forall i, (i <= n)%nat ->
     hw_mqtt_connected hw (calls is_MqttConnected s + i) = false) ->
  hw_mqtt_connected hw (calls is_MqttConnected s + S n) = true ->
  ((n < fuel)%nat ->
     exists s', ensureMQTTConnection fuel hw s = Done tt s' /\
       calls is_backoff s' =
         (calls is_backoff s + refusals hw (calls is_MqttConnect s) n)%nat) /\
  ((fuel <= n)%nat -> returned (ensureMQTTConnection fuel hw s) = None).
Proof.
  intros Hp Hup.
  pose proof (Hp O ltac:(lia)) as Hp0. rewrite Nat.add_0_r in Hp0.
  set (s1 := push (MqttConnected false) s).
  assert (E : ensureMQTTConnection fuel hw s = connectToMQTT fuel hw s1).
  { unfold ensureMQTTConnection, bind at 1, mqttClient_connected, ask.
    cbv beta zeta. rewrite Hp0. reflexivity. }
  rewrite E. clear E.
  assert (D1 : calls is_MqttConnected s1 = S (calls is_MqttConnected s))
    by reflexivity.
  change (calls is_backoff s) with (calls is_backoff s1).
  change (calls is_MqttConnect s) with (calls is_MqttConnect s1).
  apply connectToMQTT_rounds.
  - intros i Hi. rewrite D1. rewrite <- (Hp (S i)) by lia. f_equal. lia.
  - rewrite D1, <- Hup. f_equal. lia.
Qed.

Lemma wifi_event_no_backoff ev : wifi_event ev = true -> is_backoff ev = false.
Proof.
  destruct ev; cbn; try congruence. intro H. apply Z.eqb_eq in H. subst.
  reflexivity.
Qed.

Lemma mqtt_event_no_link_wait ev :
  mqtt_event ev = true -> is_link_wait ev = false.
Proof.
  destruct ev; cbn; try congruence. intro H. apply Z.eqb_eq in H. subst.
  reflexivity.
Qed.

(** C5, amended: a call of the two connectivity checks returns exactly when
    both checks return, and each check blocks for as many retry rounds as its
    layer stays down: with the link down at the check and at the next [m]
    polls it makes [m] waits of 500 ms, with the session down at the check
    and at the next [n] polls it makes [n] connect attempts with a backoff
    wait of 2000 ms after every refused one; neither returns before its
    rounds are over. *)
Theorem ensure_ready_blocks_until_up (fuel : nat) (hw : Hardware) (s : State) :
  (forall s',
     ensure_ready fuel hw s = Done tt s' <->
     exists s1, ensureWiFiConnection fuel hw s = Done tt s1 /\
                ensureMQTTConnection fuel hw s1 = Done tt s') /\
  (forall m,
     (forall i, (i <= m)%nat ->
        hw_wifi_status hw (calls is_WiFiStatus s + i) <> WL_CONNECTED) ->
     hw_wifi_status hw (calls is_WiFiStatus s + S m) = WL_CONNECTED ->
     ((m < fuel)%nat ->
        exists s', ensureWiFiConnection fuel hw s = Done tt s' /\
          calls is_link_wait s' = (calls is_link_wait s + m)%nat) /\
     ((fuel <= m)%nat -> returned (ensureWiFiConnection fuel hw s) = None)) /\
  (forall n,
     (forall i, (i <= n)%nat ->
        hw_mqtt_connected hw (calls is_MqttConnected s + i) = false) ->
     hw_mqtt_connected hw (calls is_MqttConnected s + S n) = true ->
     ((n < fuel)%nat ->
        exists s', ensureMQTTConnection fuel hw s = Done tt s' /\
          calls is_backoff s' =
            (calls is_backoff s + refusals hw (calls is_MqttConnect s) n)%nat) /\
     ((fuel <= n)%nat -> returned (ensureMQTTConnection fuel hw s) = None)).
Proof.
  split; [ | split].
  - intro s'. unfold ensure_ready, bind.
    destruct (ensureWiFiConnection fuel hw s) as [[] s1 | s1]; split.
    + intro H. exists s1. auto.
    + intros (s1' & E1 & E2). injection E1 as <-. exact E2.
    + discriminate.
    + intros (s1' & E1 & _). discriminate.
  - intro m. apply ensureWiFiConnection_rounds.
  - intro n. apply ensureMQTTConnection_rounds.
Qed.

(** C5, as stated, fails: one call of the connectivity checks, made in the
    state [setup] leaves, goes through two backoff waits before it returns. *)
Lemma broker_refuses_twice_two_rounds :
  let s := after_setup broker_refuses_twice in
  let r := ensure_ready 4 broker_refuses_twice s in
  returned (setup 2 broker_refuses_twice initial_state) = Some tt /\
  returned r = Some tt /\
  (calls is_backoff (final_state r) - calls is_backoff s = 2)%nat /\
  filter is_Delay (added s (final_state r)) = [Delay 2000; Delay 2000].
Proof. vm_compute. repeat split. Qed.

Lemma ensure_ready_blocks_until_up_witness :
  exists s',
    ensureMQTTConnection 4 broker_refuses_twice
      (after_setup broker_refuses_twice) = Done tt s' /\
    calls is_backoff s' = 2%nat.
Proof.
  destruct (ensure_ready_blocks_until_up 4 broker_refuses_twice
              (after_setup broker_refuses_twice)) as (_ & _ & H).
  destruct (H 3%nat) as [H1 _].
  - intros i Hi.
    destruct i as [| [| [| [| i]]]]; try reflexivity.
    exfalso. lia.
  - reflexivity.
  - destruct (H1 ltac:(lia)) as (s' & E & C). exists s'. split; [exact E | ].
    rewrite C. reflexivity.
Defined.

(** ** One pass, once the connectivity checks have returned *)

Lemma ensure_ready_only fuel : only connectivity_event (ensure_ready fuel).
Proof.
  unfold ensure_ready. apply only_bind.
  - eapply only_weaken; [ | apply ensureWiFiConnection_only].
    intros ev H. unfold connectivity_event. rewrite H. reflexivity.
  - intros _. eapply only_weaken; [ | apply ensureMQTTConnection_only].
    intros ev H. unfold connectivity_event. rewrite H. apply orb_true_r.
Qed.

(** The calls [detectGesture] makes: two analog reads, one inertial sample,
    four digital reads; no send. *)
Lemma detectGesture_calls hw s :
  let s' := final_state (detectGesture hw s) in
  lastReadTime s' = lastReadTime s /\
  calls is_AnalogRead s' = S (S (calls is_AnalogRead s)) /\
  calls is_MpuGetEvent s' = S (calls is_MpuGetEvent s) /\
  calls is_DigitalRead s' = S (S (S (S (calls is_DigitalRead s)))) /\
  calls is_MqttPublish s' = calls is_MqttPublish s.
Proof.
  unfold detectGesture, debugSensors, debounceTouchSensor,
    readFlexSensor, readMPU6050, analogRead, digitalRead, mpu_getEvent,
    Serial_print, delay, bind, ask, emit, ret.
  cbn.
  destruct (_ =? _); cbn; destruct (_ =? _); cbn; repeat split.
Qed.

Lemma publishGesture_calls g hw s :
  let s' := final_state (publishGesture g hw s) in
  lastReadTime s' = lastReadTime s /\
  calls is_AnalogRead s' = calls is_AnalogRead s /\
  calls is_MqttPublish s' = S (calls is_MqttPublish s).
Proof.
  cbv zeta. rewrite publishGesture_run. cbn [final_state].
  unfold calls. cbn [log lastReadTime].
  destruct (hw_mqtt_publish hw _); cbn; auto.
Qed.

Lemma loop_after_ready fuel hw s s2 :
  ensure_ready fuel hw s = Done tt s2 ->
  let cur := wrap32 (hw_millis hw (calls is_Millis s2)) in
  let s' := final_state (loop fuel hw s) in
  lastReadTime s2 = lastReadTime s /\
  calls is_AnalogRead s2 = calls is_AnalogRead s /\
  calls is_MqttPublish s2 = calls is_MqttPublish s /\
  returned (loop fuel hw s) = Some tt /\
  if interval_elapsed cur (lastReadTime s) then
    let s3 := {| lastReadTime := cur; log := Millis cur :: log s2 |} in
    let g := classify (frame_read hw s3) in
    returned (detectGesture hw s3) = Some g /\
    lastReadTime s' = cur /\
    calls is_AnalogRead s' = S (S (calls is_AnalogRead s)) /\
    calls is_MqttPublish s' =
      ((if (g =? 0)%Z then 0 else 1) + calls is_MqttPublish s)%nat
  else s' = push (Millis cur) s2.
Proof.
  intros E. cbv zeta.
  pose proof (ensure_ready_only fuel hw s) as Q. rewrite E in Q.
  cbn [final_state] in Q.
  assert (T : lastReadTime s2 = lastReadTime s) by apply Q.
  assert (A : calls is_AnalogRead s2 = calls is_AnalogRead s).
  { eapply quiet_calls; [ | exact Q]. intros []; cbn; congruence. }
  assert (P : calls is_MqttPublish s2 = calls is_MqttPublish s).
  { eapply quiet_calls; [ | exact Q]. intros []; cbn; congruence. }
  assert (E' : loop fuel hw s = sample_and_publish hw s2).
  { rewrite loop_ensure_ready. unfold bind at 1. rewrite E. reflexivity. }
  rewrite E'. clear E'.
  pose proof (sample_and_publish_run hw s2) as H. cbv zeta in H.
  rewrite T in H.
  set (cur := wrap32 (hw_millis hw (calls is_Millis s2))) in *.
  repeat (split; [assumption | ]).
  destruct (interval_elapsed cur (lastReadTime s)).
  - destruct H as (s3 & E3 & _ & ->).
    set (s0 := {| lastReadTime := cur; log := Millis cur :: log s2 |}) in *.
    pose proof (detectGesture_calls hw s0) as (C1 & C2 & _ & _ & C3).
    rewrite E3 in C1, C2, C3. cbn [final_state] in C1, C2, C3.
    change (calls is_AnalogRead s0) with (calls is_AnalogRead s2) in C2.
    change (calls is_MqttPublish s0) with (calls is_MqttPublish s2) in C3.
    change (lastReadTime s0) with cur in C1.
    destruct (classify (frame_read hw s0) =? 0) eqn:G; cbn [negb].
    + cbn [final_state returned]. rewrite E3. cbn [returned Nat.add].
      repeat split; congruence.
    + pose proof (publishGesture_calls (classify (frame_read hw s0)) hw s3)
        as (D1 & D2 & D3).
      rewrite E3. cbn [returned]. rewrite publishGesture_run in *.
      cbn [final_state returned] in *.
      cbn [Nat.add]. repeat split; try congruence.
  - rewrite H. split; reflexivity.
Qed.

(** ** The sampling schedule *)

Lemma grows_trans P s1 s2 s3 : grows P s1 s2 -> grows P s2 s3 -> grows P s1 s3.
Proof.
  intros (n1 & L1 & F1) (n2 & L2 & F2).
  exists (n2 ++ n1). rewrite L2, L1, app_assoc, forallb_app, F1, F2. auto.
Qed.

Lemma grows_weaken (P Q : Event -> bool) s s' :
  (forall ev, P ev = true -> Q ev = true) -> grows P s s' -> grows Q s s'.
Proof.
  intros HPQ (n & L & F). exists n. split; [exact L | ].
  rewrite forallb_forall in *. auto.
Qed.

Lemma may_of_only (P Q : Event -> bool) {A} (m : M A) :
  (forall ev, P ev = true -> Q ev = true) -> only P m -> may Q m.
Proof. intros HPQ H hw s. eapply grows_weaken; [exact HPQ | apply H]. Qed.

Lemma may_bind P {A B} (m : M A) (k : A -> M B) :
  may P m -> (forall a, may P (k a)) -> may P (bind m k).
Proof.
  intros Hm Hk hw s. unfold bind. specialize (Hm hw s).
  destruct (m hw s) as [a s1 | s1]; cbn in Hm; [ | exact Hm].
  eapply grows_trans; [exact Hm | apply Hk].
Qed.

Lemma sample_and_publish_may : may any_event sample_and_publish.
Proof.
  intros hw s. eapply grows_weaken; [ | apply sample_and_publish_grows].
  reflexivity.
Qed.

Lemma after_link_check_may fuel :
  may any_event (ensureMQTTConnection fuel ;; sample_and_publish).
Proof.
  apply may_bind; [ | intros _; apply sample_and_publish_may].
  eapply may_of_only; [ | apply ensureMQTTConnection_only]. reflexivity.
Qed.

(** Every pass starts with a poll of the link. *)
Lemma loop_polls_link fuel hw s :
  exists new,
    log (final_state (loop fuel hw s)) =
    new ++ WiFiStatus (hw_wifi_status hw (calls is_WiFiStatus s)) :: log s.
Proof.
  set (r := hw_wifi_status hw (calls is_WiFiStatus s)).
  assert (G : grows any_event (push (WiFiStatus r) s)
                (final_state (loop fuel hw s))).
  { assert (E : loop fuel hw s =
               ((if negb (r =? WL_CONNECTED) then connectToWiFi fuel else ret tt) ;;
                ensureMQTTConnection fuel ;; sample_and_publish)
                 hw (push (WiFiStatus r) s)) by reflexivity.
    rewrite E. apply may_bind; [ | intros _; apply after_link_check_may].
    destruct (negb _).
    - eapply may_of_only; [ | apply connectToWiFi_only]. reflexivity.
    - eapply may_of_only; [ | apply (only_ret any_event)]. reflexivity. }
  destruct G as (n & L & _). exists n. exact L.
Qed.

(** Every pass whose link check returns goes on with a poll of the
    session. *)
Lemma loop_polls_session fuel hw s s1 :
  ensureWiFiConnection fuel hw s = Done tt s1 ->
  exists new,
    log (final_state (loop fuel hw s)) =
    new ++ MqttConnected (hw_mqtt_connected hw (calls is_MqttConnected s1))
        :: log s1.
Proof.
  intro E1.
  set (r := hw_mqtt_connected hw (calls is_MqttConnected s1)).
  assert (G : grows any_event (push (MqttConnected r) s1)
                (final_state (loop fuel hw s))).
  { assert (E : loop fuel hw s =
               ((if negb r then connectToMQTT fuel else ret tt) ;;
                sample_and_publish) hw (push (MqttConnected r) s1)).
    { rewrite loop_unfold. unfold bind at 1. rewrite E1. reflexivity. }
    rewrite E. apply may_bind; [ | intros _; apply sample_and_publish_may].
    destruct (negb _).
    - eapply may_of_only; [ | apply connectToMQTT_only]. reflexivity.
    - eapply may_of_only; [ | apply (only_ret any_event)]. reflexivity. }
  destruct G as (n & L & _). exists n. exact L.
Qed.

(** C10: the test of line 79 is the 32-bit difference of the two timestamps
    compared with 500: it succeeds iff [(currentTime - lastReadTime) mod 2^32]
    is at least 500, so for timestamps taken from an uptime counter that has
    wrapped it succeeds iff at least 500 ms have passed (for any elapsed time
    below 2^32 ms).  In a pass whose connectivity checks return, the sensors
    are sampled iff the test succeeds; the link is polled in every pass and
    the session in every pass whose link check returns, whatever the clock
    says. *)
Theorem loop_interval_mod32 (fuel : nat) (hw : Hardware) (s : State) :
  (forall cur last,
     interval_elapsed cur last = true <-> 500 <= (cur - last) mod 2 ^ 32) /\
  (forall t_last t_now,
     0 <= t_now - t_last < 2 ^ 32 ->
     (interval_elapsed (wrap32 t_now) (wrap32 t_last) = true <->
      500 <= t_now - t_last)) /\
  (exists new,
     log (final_state (loop fuel hw s)) =
     new ++ WiFiStatus (hw_wifi_status hw (calls is_WiFiStatus s)) :: log s) /\
  (forall s1,
     ensureWiFiConnection fuel hw s = Done tt s1 ->
     exists new,
       log (final_state (loop fuel hw s)) =
       new ++ MqttConnected (hw_mqtt_connected hw (calls is_MqttConnected s1))
           :: log s1) /\
  (forall s2,
     ensure_ready fuel hw s = Done tt s2 ->
     let cur := wrap32 (hw_millis hw (calls is_Millis s2)) in
     let s' := final_state (loop fuel hw s) in
     returned (loop fuel hw s) = Some tt /\
     (calls is_AnalogRead s' = S (S (calls is_AnalogRead s)) <->
      500 <= (cur - lastReadTime s) mod 2 ^ 32) /\
     (calls is_AnalogRead s' = calls is_AnalogRead s <->
      (cur - lastReadTime s) mod 2 ^ 32 < 500) /\
     lastReadTime s' =
       (if interval_elapsed cur (lastReadTime s) then cur else lastReadTime s)).
Proof.
  split; [exact interval_elapsed_iff | ].
  split; [exact interval_elapsed_uptime | ].
  split; [apply loop_polls_link | ].
  split; [intros s1; apply loop_polls_session | ].
  intros s2 E. cbv zeta.
  pose proof (loop_after_ready fuel hw s s2 E) as (T & A & _ & R & H).
  cbv zeta in H. split; [exact R | ].
  pose proof (interval_elapsed_iff
                (wrap32 (hw_millis hw (calls is_Millis s2))) (lastReadTime s))
    as G.
  destruct (interval_elapsed _ _).
  - destruct H as (_ & H1 & H2 & _).
    assert (500 <= (wrap32 (hw_millis hw (calls is_Millis s2)) - lastReadTime s)
                     mod 2 ^ 32) by (apply G; reflexivity).
    repeat split; auto; try lia.
  - rewrite H. cbn [lastReadTime].
    assert (~ 500 <= (wrap32 (hw_millis hw (calls is_Millis s2)) - lastReadTime s)
                       mod 2 ^ 32) by (rewrite <- G; discriminate).
    change (calls is_AnalogRead (push _ s2)) with (calls is_AnalogRead s2).
    rewrite A. repeat split; auto; try lia.
Qed.

Lemma loop_interval_mod32_witness :
  interval_elapsed (wrap32 (2 ^ 32 + 450)) (wrap32 (2 ^ 32 - 100)) = true.
Proof.
  apply (proj1 (proj2 (loop_interval_mod32 1 bouncing_pin initial_state))
           (2 ^ 32 - 100) (2 ^ 32 + 450)); lia.
Defined.

(** ** A refused send *)

(** C7: when the MQTT client refuses the send, [publishGesture] still
    returns; it has made that one send attempt and printed one diagnostic,
    and nothing else of the state has changed.  The next pass through [loop],
    once its connectivity checks return, returns too, and when the interval
    has elapsed it samples the sensors and sends iff the frame it reads is
    classified as a gesture. *)
Theorem publish_failure_not_fatal (g : Z) (hw : Hardware) (s : State) :
  hw_mqtt_publish hw (calls is_MqttPublish s) = false ->
  let s1 := final_state (publishGesture g hw s) in
  returned (publishGesture g hw s) = Some tt /\
  log s1 = SerialPrintln "Failed to publish gesture code!"
             :: MqttPublish mqttTopic (gesture_message g) false :: log s /\
  lastReadTime s1 = lastReadTime s /\
  calls is_MqttPublish s1 = S (calls is_MqttPublish s) /\
  forall fuel s2,
    ensure_ready fuel hw s1 = Done tt s2 ->
    let cur := wrap32 (hw_millis hw (calls is_Millis s2)) in
    let s' := final_state (loop fuel hw s1) in
    returned (loop fuel hw s1) = Some tt /\
    (interval_elapsed cur (lastReadTime s) = true ->
     let g' := classify (frame_read hw
                 {| lastReadTime := cur; log := Millis cur :: log s2 |}) in
     calls is_AnalogRead s' = S (S (calls is_AnalogRead s)) /\
     calls is_MqttPublish s' =
       ((if (g' =? 0)%Z then 0 else 1) + calls is_MqttPublish s1)%nat).
Proof.
  intro F. cbv zeta.
  pose proof (publishGesture_calls g hw s) as (T & A & P). cbv zeta in T, A, P.
  rewrite publishGesture_run in *. rewrite F in *.
  cbn [final_state returned log publish_report app] in *.
  repeat (split; [first [reflexivity | assumption] | ]).
  intros fuel s2 E.
  pose proof (loop_after_ready fuel hw _ s2 E) as (_ & _ & _ & R & H).
  cbv zeta in H. cbn [lastReadTime] in H.
  split; [exact R | ]. intro G. rewrite G in H.
  destruct H as (_ & _ & H1 & H2). rewrite H1, H2, A. split; reflexivity.
Qed.

Lemma publish_failure_not_fatal_witness :
  let s1 := final_state (publishGesture GESTURE_FIST refusing_sends initial_state) in
  returned (publishGesture GESTURE_FIST refusing_sends initial_state) = Some tt /\
  returned (loop 1 refusing_sends s1) = Some tt /\
  calls is_AnalogRead (final_state (loop 1 refusing_sends s1)) = 2%nat /\
  calls is_MqttPublish (final_state (loop 1 refusing_sends s1)) = 2%nat.
Proof.
  destruct (publish_failure_not_fatal GESTURE_FIST refusing_sends initial_state
              eq_refl) as (R & _ & _ & _ & N).
  destruct (N 1%nat _ eq_refl) as (R' & S').
  destruct (S' eq_refl) as (A & P).
  repeat split; assumption.
Defined.

(** ** Every payload ever sent *)

Lemma only_mpu_begin P : (forall r, P (MpuBegin r) = true) -> only P mpu_begin.
Proof. intros H hw s. apply quiet_push, H. Qed.

Lemma setup_sends fuel : may known_send (setup fuel).
Proof.
  eapply may_of_only with (P := known_send); [auto | ].
  unfold setup, connectToWiFi, connectToMQTT, wifi_down, wifi_wait, mqtt_down,
    mqtt_attempt, Serial_print, Serial_println, WiFi_begin, WiFi_status,
    mqttClient_connected, mqttClient_connect, mqttClient_state, delay.
  repeat first [only_step | apply only_mpu_begin; reflexivity].
Qed.

Lemma sample_and_publish_sends : may known_send sample_and_publish.
Proof.
  intros hw s. pose proof (sample_and_publish_run hw s) as H. cbv zeta in H.
  set (cur := wrap32 (hw_millis hw (calls is_Millis s))) in *.
  destruct (interval_elapsed _ _).
  - destruct H as (s3 & _ & [_ (n3 & L3 & F3)] & ->). cbn [log] in L3.
    assert (G3 : grows known_send s s3).
    { exists (n3 ++ [Millis cur]). rewrite L3, <- app_assoc.
      split; [reflexivity | ]. rewrite forallb_app. cbn. rewrite andb_true_r.
      rewrite forallb_forall in *. intros ev Hev. specialize (F3 ev Hev).
      destruct ev; cbn in *; congruence. }
    set (g := classify (frame_read hw
                 {| lastReadTime := cur; log := Millis cur :: log s |})).
    destruct (g =? 0) eqn:G; cbn [negb]; [exact G3 | ].
    eapply grows_trans; [exact G3 | ].
    rewrite publishGesture_run. cbn [final_state].
    exists (publish_report (gesture_message g)
              (hw_mqtt_publish hw (calls is_MqttPublish s3)) ++
            [MqttPublish mqttTopic (gesture_message g)
               (hw_mqtt_publish hw (calls is_MqttPublish s3))]).
    cbn [log]. rewrite <- app_assoc. split; [reflexivity | ].
    rewrite forallb_app. apply andb_true_iff. split.
    + destruct (hw_mqtt_publish hw _); reflexivity.
    + apply Z.eqb_neq in G. subst g.
      destruct (classify_range (frame_read hw
                  {| lastReadTime := cur; log := Millis cur :: log s |}))
        as [E | [E | [E | [E | E]]]]; rewrite E in *;
        [contradiction | reflexivity ..].
  - rewrite H. exists [Millis cur]. split; reflexivity.
Qed.

Lemma loop_sends fuel : may known_send (loop fuel).
Proof.
  rewrite loop_unfold. apply may_bind; [ | intros _; apply may_bind].
  - eapply may_of_only; [ | apply ensureWiFiConnection_only].
    intros []; cbn; congruence.
  - eapply may_of_only; [ | apply ensureMQTTConnection_only].
    intros []; cbn; congruence.
  - intros _. apply sample_and_publish_sends.
Qed.

Lemma firmware_sends n fuel : may known_send (firmware n fuel).
Proof.
  unfold firmware. apply may_bind; [apply setup_sends | intros _].
  induction n as [| n IH]; cbn [loops].
  - intros hw s. exists []. split; reflexivity.
  - apply may_bind; [apply loop_sends | intros _; exact IH].
Qed.

(** C9: whatever the sensors read, [detectGesture] returns one of 0, 1, 2, 3,
    4; each non-zero code is rendered as one of "0x01" .. "0x04", which with
    its terminator fits the ten bytes of [message], so [snprintf] does not
    truncate it; and in every run of the firmware every send carries one of
    these four payloads on the fixed topic. *)
Theorem gesture_codes_and_payloads (hw : Hardware) (s : State) :
  (exists g, returned (detectGesture hw s) = Some g /\
             In g [0; GESTURE_FIST; GESTURE_OPEN_HAND; GESTURE_LEFT;
                   GESTURE_RIGHT]) /\
  (forall g,
     In g [GESTURE_FIST; GESTURE_OPEN_HAND; GESTURE_LEFT; GESTURE_RIGHT] ->
     In (format_gesture g) payloads /\
     (String.length (format_gesture g) + 1 <= message_size)%nat /\
     gesture_message g = format_gesture g) /\
  (forall n fuel,
     forallb known_send
       (log (final_state (firmware n fuel hw initial_state))) = true).
Proof.
  split; [ | split].
  - exists (classify (frame_read hw s)).
    split; [apply detectGesture_returns | ].
    destruct (classify_range (frame_read hw s)) as [E | [E | [E | [E | E]]]];
      rewrite E; cbn; tauto.
  - intros g Hg.
    assert (C : g = GESTURE_FIST \/ g = GESTURE_OPEN_HAND \/ g = GESTURE_LEFT \/
                g = GESTURE_RIGHT) by (cbn in Hg; intuition congruence).
    destruct (payload_of_code g C) as (H1 & H2 & H3).
    repeat split; [exact H1 | rewrite H3; unfold message_size; lia | exact H2].
  - intros n fuel.
    destruct (firmware_sends n fuel hw initial_state) as (new & L & F).
    rewrite L. cbn [initial_state log]. rewrite app_nil_r. exact F.
Qed.

Lemma gesture_codes_and_payloads_witness :
  In (format_gesture GESTURE_RIGHT) payloads /\
  (String.length (format_gesture GESTURE_RIGHT) + 1 <= message_size)%nat /\
  gesture_message GESTURE_RIGHT = format_gesture GESTURE_RIGHT.
Proof.
  apply (proj1 (proj2 (gesture_codes_and_payloads refusing_sends initial_state))
           GESTURE_RIGHT).
  cbn. tauto.
Defined.

(** * Further properties *)

(** ** More on the classifier *)

(** The gesture depends on the two flex readings, on the acceleration along
    x and on whether each touch channel is HIGH, and on nothing else: the
    accelerations along y and z, and the value of a touch channel that is not
    HIGH, never change it. *)
Theorem classify_same_inputs (f f' : SensorFrame) :
  same_inputs f f' -> classify f = classify f'.
Proof.
  intros (H1 & H2 & H3 & H4 & H5).
  unfold classify, fist_guard, open_guard, left_guard, right_guard.
  rewrite H1, H2, H3, H4, H5. reflexivity.
Qed.

Lemma classify_same_inputs_witness :
  classify (mkFrame 100 100 minus_six gravity S754_nan HIGH 7) =
  classify tilted_fist.
Proof.
  apply classify_same_inputs. unfold same_inputs. cbn. tauto.
Defined.

Lemma float_to_double_opp x :
  float_to_double (SFopp x) = SFopp (float_to_double x).
Proof.
  destruct x as [s | s | | s m e]; try reflexivity.
  cbn [SFopp float_to_double]. unfold binary_round.
  destruct (shl_align _ _ _) as [mz ez]. unfold binary_round_aux.
  destruct (shr_fexp _ _ _ _ _) as [mrs' e'].
  destruct (shr_fexp _ _ _ _ _) as [mrs'' e''].
  destruct (shr_m mrs''); try reflexivity.
  destruct (Z.leb _ _); reflexivity.
Qed.

Lemma SFltb_opp_left x :
  SFltb (SFopp x) LEFT_THRESHOLD = SFltb RIGHT_THRESHOLD x.
Proof.
  destruct x as [s | s | | s m e]; try (destruct s; reflexivity); try reflexivity.
  unfold SFltb, SFcompare, SFopp, LEFT_THRESHOLD, RIGHT_THRESHOLD.
  destruct s; cbn [negb]; [reflexivity | ].
  rewrite (Z.compare_antisym e (-50)).
  destruct (e ?= -50) eqn:E; cbn [CompOpp]; try reflexivity.
  rewrite Pos.compare_cont_antisym. cbn [CompOpp]. reflexivity.
Qed.

Lemma SFltb_opp_right x :
  SFltb RIGHT_THRESHOLD (SFopp x) = SFltb x LEFT_THRESHOLD.
Proof.
  destruct x as [s | s | | s m e]; try (destruct s; reflexivity); try reflexivity.
  unfold SFltb, SFcompare, SFopp, LEFT_THRESHOLD, RIGHT_THRESHOLD.
  destruct s; cbn [negb]; [ | reflexivity].
  rewrite (Z.compare_antisym e (-50)).
  destruct (e ?= -50) eqn:E; cbn [CompOpp]; try reflexivity.
  rewrite Pos.compare_cont_antisym. cbn [CompOpp]. reflexivity.
Qed.

(** Tilting the hand the other way swaps Left and Right and changes nothing
    else: the two tilt thresholds are placed symmetrically. *)
Theorem classify_mirror (f : SensorFrame) :
  classify (mirror f) = swap_tilt (classify f).
Proof.
  assert (L : left_guard (mirror f) = right_guard f).
  { unfold left_guard, right_guard. cbn [mirror accelX].
    rewrite float_to_double_opp. apply SFltb_opp_left. }
  assert (R : right_guard (mirror f) = left_guard f).
  { unfold left_guard, right_guard. cbn [mirror accelX].
    rewrite float_to_double_opp. apply SFltb_opp_right. }
  assert (X : left_guard f && right_guard f = false).
  { unfold left_guard, right_guard.
    destruct (float_to_double (accelX f)) as [sg | sg | | sg m e];
      try (destruct sg; reflexivity); try reflexivity.
    destruct sg; [apply andb_false_intro2 | apply andb_false_intro1];
      reflexivity. }
  unfold classify. rewrite L, R.
  change (fist_guard 500 (mirror f)) with (fist_guard 500 f).
  change (open_guard 2000 (mirror f)) with (open_guard 2000 f).
  destruct (fist_guard 500 f), (open_guard 2000 f); try reflexivity;
    destruct (left_guard f), (right_guard f); try discriminate; reflexivity.
Qed.

(** An acceleration along x that is not a number, or is zero, never gives a
    tilt gesture; minus infinity is a tilt to the left and plus infinity a
    tilt to the right wherever no flex rule matches. *)
Theorem classify_special_acceleration (f : SensorFrame) :
  (nan_or_zero (accelX f) = true ->
   classify f <> GESTURE_LEFT /\ classify f <> GESTURE_RIGHT) /\
  (accelX f = S754_infinity true -> classify f <> 0 /\
   classify f <> GESTURE_RIGHT) /\
  (accelX f = S754_infinity false -> classify f <> 0 /\
   classify f <> GESTURE_LEFT).
Proof.
  unfold classify, left_guard, right_guard.
  repeat split; intros;
    destruct (fist_guard 500 f), (open_guard 2000 f); try discriminate;
    destruct (accelX f) as [sg | sg | | sg m e]; try discriminate;
    try destruct sg; try discriminate; cbn in *; congruence.
Qed.

Lemma classify_special_acceleration_witness :
  classify (at_rest 1000 1000 S754_nan LOW LOW) <> GESTURE_LEFT /\
  classify (at_rest 1000 1000 S754_nan LOW LOW) <> GESTURE_RIGHT.
Proof.
  apply (proj1 (classify_special_acceleration
                  (at_rest 1000 1000 S754_nan LOW LOW))).
  reflexivity.
Defined.

(** ** From the raw reads to the gesture *)

Lemma debounced_high first second :
  debounced first second = HIGH <-> first = HIGH /\ second = HIGH.
Proof.
  unfold debounced. destruct (second =? first) eqn:E.
  - apply Z.eqb_eq in E. subst. tauto.
  - apply Z.eqb_neq in E. unfold LOW, HIGH in *. split; [discriminate | ].
    intros [-> ->]. contradiction.
Qed.

Lemma classify_fist_iff f :
  classify f = GESTURE_FIST <-> fist_guard 500 f = true.
Proof. split_guards f; split; intros; congruence. Qed.

Lemma classify_open_hand f :
  classify f = GESTURE_OPEN_HAND -> open_guard 2000 f = true.
Proof. split_guards f; intros; congruence. Qed.

(** Debounce and classification together, on the raw reads: a Fist is
    returned exactly when both flex reads are below 500 and both reads of
    touch pin 4 are HIGH; an OpenHand only when both flex reads are above
    2000 and both reads of touch pin 14 are HIGH.  One bounced read of the
    touch pin is enough to lose the gesture. *)
Theorem detectGesture_on_raw_reads (hw : Hardware) (s : State) :
  let ka := calls is_AnalogRead s in
  let kd := calls is_DigitalRead s in
  (returned (detectGesture hw s) = Some GESTURE_FIST <->
   hw_analogRead hw FLEX_SENSOR_1_PIN ka < 500 /\
   hw_analogRead hw FLEX_SENSOR_2_PIN (S ka) < 500 /\
   hw_digitalRead hw TOUCH_SENSOR_1_PIN kd = HIGH /\
   hw_digitalRead hw TOUCH_SENSOR_1_PIN (S kd) = HIGH) /\
  (returned (detectGesture hw s) = Some GESTURE_OPEN_HAND ->
   hw_analogRead hw FLEX_SENSOR_1_PIN ka > 2000 /\
   hw_analogRead hw FLEX_SENSOR_2_PIN (S ka) > 2000 /\
   hw_digitalRead hw TOUCH_SENSOR_2_PIN (S (S kd)) = HIGH /\
   hw_digitalRead hw TOUCH_SENSOR_2_PIN (S (S (S kd))) = HIGH).
Proof.
  cbv zeta. rewrite detectGesture_returns. split.
  - split.
    + intro H. injection H as H. apply classify_fist_iff, fist_guard_iff in H.
      cbn [frame_read flex1 flex2 touch1] in H.
      rewrite debounced_high in H. tauto.
    + intro H. f_equal. apply classify_fist_iff, fist_guard_iff.
      cbn [frame_read flex1 flex2 touch1]. rewrite debounced_high. tauto.
  - intro H. injection H as H. apply classify_open_hand, open_guard_iff in H.
    cbn [frame_read flex1 flex2 touch2] in H.
    rewrite debounced_high in H. tauto.
Qed.

Lemma detectGesture_on_raw_reads_witness :
  returned (detectGesture refusing_sends initial_state) = Some GESTURE_FIST.
Proof.
  apply (proj2 (proj1 (detectGesture_on_raw_reads refusing_sends initial_state))).
  cbn. repeat split; lia.
Defined.

(** One acquisition: each flex channel is read once, then the inertial
    sensor once, then each touch pin twice with a 50 ms wait between its two
    reads, in this order; it blocks for 100 ms in all, and leaves
    [lastReadTime] alone. *)
Theorem detectGesture_acquisition (hw : Hardware) (s : State) :
  let ka := calls is_AnalogRead s in
  let kd := calls is_DigitalRead s in
  let a := hw_mpu_getEvent hw (calls is_MpuGetEvent s) in
  let s' := final_state (detectGesture hw s) in
  filter (fun ev => is_sensor_read ev || is_Delay ev) (history s') =
    filter (fun ev => is_sensor_read ev || is_Delay ev) (history s) ++
    [AnalogRead FLEX_SENSOR_1_PIN (hw_analogRead hw FLEX_SENSOR_1_PIN ka);
     AnalogRead FLEX_SENSOR_2_PIN (hw_analogRead hw FLEX_SENSOR_2_PIN (S ka));
     MpuGetEvent (fst (fst a)) (snd (fst a)) (snd a);
     DigitalRead TOUCH_SENSOR_1_PIN (hw_digitalRead hw TOUCH_SENSOR_1_PIN kd);
     Delay 50;
     DigitalRead TOUCH_SENSOR_1_PIN (hw_digitalRead hw TOUCH_SENSOR_1_PIN (S kd));
     DigitalRead TOUCH_SENSOR_2_PIN
       (hw_digitalRead hw TOUCH_SENSOR_2_PIN (S (S kd)));
     Delay 50;
     DigitalRead TOUCH_SENSOR_2_PIN
       (hw_digitalRead hw TOUCH_SENSOR_2_PIN (S (S (S kd))))] /\
  total_delay (log s') = 100 + total_delay (log s) /\
  lastReadTime s' = lastReadTime s.
Proof.
  unfold detectGesture, debugSensors, debounceTouchSensor,
    readFlexSensor, readMPU6050, analogRead, digitalRead, mpu_getEvent,
    Serial_print, delay, bind, ask, emit, ret, history.
  cbn -[Z.add].
  destruct (_ =? _); cbn -[Z.add]; destruct (_ =? _); cbn -[Z.add];
    rewrite !filter_app; cbn -[Z.add]; rewrite <- !app_assoc; cbn -[Z.add];
    (split; [reflexivity | split; [lia | reflexivity]]).
Qed.

(** ** The text of the payload *)

Lemma string_length_app (a b : string) :
  String.length (a ++ b)%string = (String.length a + String.length b)%nat.
Proof. induction a as [| c a IH]; cbn; [reflexivity | rewrite IH; reflexivity]. Qed.

Lemma substring_short n s :
  (String.length s <= n)%nat -> substring 0 n s = s.
Proof.
  revert s. induction n as [| n IH]; intros [| c s] H; cbn in *;
    try reflexivity; try lia.
  rewrite IH by lia. reflexivity.
Qed.

Lemma substring_length n s :
  String.length (substring 0 n s) = Nat.min n (String.length s).
Proof.
  revert s. induction n as [| n IH]; intros [| c s]; cbn; try reflexivity.
  rewrite IH. reflexivity.
Qed.

Lemma hex_digit_value_digit d :
  0 <= d < 16 -> hex_digit_value (hex_digit d) = Some d.
Proof.
  intro H.
  assert (C : d = 0 \/ d = 1 \/ d = 2 \/ d = 3 \/ d = 4 \/ d = 5 \/ d = 6 \/
              d = 7 \/ d = 8 \/ d = 9 \/ d = 10 \/ d = 11 \/ d = 12 \/
              d = 13 \/ d = 14 \/ d = 15) by lia.
  repeat (destruct C as [-> | C]; [reflexivity | ]). subst. reflexivity.
Qed.

Lemma hex_value_from_app a (d e : string) :
  hex_value_from a (d ++ e)%string =
  match hex_value_from a d with
  | Some v => hex_value_from v e
  | None => None
  end.
Proof.
  revert a. induction d as [| c d IH]; intro a; cbn; [reflexivity | ].
  destruct (hex_digit_value c); [apply IH | reflexivity].
Qed.

Lemma hex_digits_step fuel n t :
  hex_digits (S fuel) n t =
  if n / 16 =? 0 then String (hex_digit (n mod 16)) t
  else hex_digits fuel (n / 16) (String (hex_digit (n mod 16)) t).
Proof. reflexivity. Qed.

(** What [hex_digits] puts in front of its accumulator: at least one digit,
    as many as the number needs, denoting the number. *)
Lemma hex_digits_spec fuel : forall n t,
  0 <= n < 16 ^ Z.of_nat (S fuel) ->
  exists d,
    hex_digits (S fuel) n t = (d ++ t)%string /\
    hex_value_from 0 d = Some n /\
    (1 <= String.length d <= S fuel)%nat /\
    (forall k, (1 <= k)%nat -> n < 16 ^ Z.of_nat k ->
               (String.length d <= k)%nat) /\
    (forall k, 16 ^ Z.of_nat k <= n -> (k < String.length d)%nat).
Proof.
  induction fuel as [| fuel IH]; intros n t Hn; rewrite hex_digits_step;
    assert (Hm : 0 <= n mod 16 < 16) by (apply Z.mod_pos_bound; lia).
  - assert (E : n / 16 = 0) by (apply Z.div_small; cbn in Hn; lia).
    rewrite E. cbn [Z.eqb].
    assert (Hs : n = n mod 16).
    { pose proof (Z.div_mod n 16 ltac:(lia)). lia. }
    exists (String (hex_digit (n mod 16)) EmptyString).
    split; [reflexivity | ]. split.
    { cbn [hex_value_from]. rewrite hex_digit_value_digit by exact Hm.
      f_equal. lia. }
    cbn [String.length]. split; [lia | ]. split; [intros; lia | ].
    intros k Hk. destruct k as [| k]; [lia | ].
    assert (16 ^ 1 <= 16 ^ Z.of_nat (S k)) by (apply Z.pow_le_mono_r; lia).
    cbn in Hn. lia.
  -
    destruct (n / 16 =? 0) eqn:E.
    + apply Z.eqb_eq in E.
      assert (Hs : n = n mod 16).
      { pose proof (Z.div_mod n 16 ltac:(lia)). lia. }
      exists (String (hex_digit (n mod 16)) EmptyString).
      split; [reflexivity | ]. split.
      { cbn [hex_value_from]. rewrite hex_digit_value_digit by exact Hm.
      f_equal. lia. }
      cbn [String.length]. split; [lia | ]. split; [intros; lia | ].
      intros k Hk. destruct k as [| k]; [lia | ].
      assert (16 ^ 1 <= 16 ^ Z.of_nat (S k)) by (apply Z.pow_le_mono_r; lia).
      lia.
    + apply Z.eqb_neq in E.
      assert (Hq : 0 <= n / 16 < 16 ^ Z.of_nat (S fuel)).
      { split; [apply Z.div_pos; lia | ].
        apply Z.div_lt_upper_bound; [lia | ].
        rewrite (Nat2Z.inj_succ (S fuel)), Z.pow_succ_r in Hn by lia. lia. }
      destruct (IH (n / 16) (String (hex_digit (n mod 16)) t) Hq)
        as (d & Ed & Vd & Ld & Ub & Lb).
      exists (d ++ String (hex_digit (n mod 16)) EmptyString)%string.
      split.
      { rewrite Ed. clear. induction d as [| c d IHd]; cbn;
          [reflexivity | rewrite IHd; reflexivity]. }
      split.
      { rewrite hex_value_from_app, Vd. cbn [hex_value_from].
        rewrite hex_digit_value_digit by exact Hm. f_equal.
        pose proof (Z.div_mod n 16 ltac:(lia)). lia. }
      rewrite string_length_app. cbn [String.length].
      split; [lia | ]. split.
      * intros k Hk Hlt. destruct k as [| [| k]]; [lia | | ].
        { exfalso. apply E. apply Z.div_small. cbn in Hlt. lia. }
        assert (String.length d <= S k)%nat; [ | lia].
        apply Ub; [lia | ].
        apply Z.div_lt_upper_bound; [lia | ].
        rewrite (Nat2Z.inj_succ (S k)), Z.pow_succ_r in Hlt by lia. lia.
      * intros k Hk. destruct k as [| k]; [lia | ].
        assert (k < String.length d)%nat; [ | lia].
        apply Lb. apply Z.div_le_lower_bound; [lia | ].
        rewrite Nat2Z.inj_succ, Z.pow_succ_r in Hk by lia. lia.
Qed.

Lemma hex_value_zero_pad k d :
  hex_value_from 0 (zero_pad k d) = hex_value_from 0 d.
Proof. induction k as [| k IH]; cbn; [reflexivity | exact IH]. Qed.

Lemma zero_pad_length k d :
  String.length (zero_pad k d) = (k + String.length d)%nat.
Proof. induction k as [| k IH]; cbn; [reflexivity | rewrite IH; reflexivity]. Qed.

Lemma wrap32_range v : 0 <= wrap32 v < 16 ^ Z.of_nat 8.
Proof. unfold wrap32. change (16 ^ Z.of_nat 8) with (2 ^ 32). apply Z.mod_pos_bound. lia. Qed.

(** The digits [%02X] prints: between two and eight, denoting the argument
    read as a 32-bit unsigned number. *)
Lemma format_02X_spec v :
  hex_value_from 0 (format_02X v) = Some (wrap32 v) /\
  (2 <= String.length (format_02X v) <= 8)%nat /\
  (wrap32 v < 2 ^ 28 -> (String.length (format_02X v) <= 7)%nat) /\
  (2 ^ 28 <= wrap32 v -> String.length (format_02X v) = 8%nat).
Proof.
  unfold format_02X. cbv zeta.
  destruct (hex_digits_spec 7 (wrap32 v) EmptyString (wrap32_range v))
    as (d & Ed & Vd & Ld & Ub & Lb).
  assert (Ed' : hex_digits 8 (wrap32 v) "" = d).
  { rewrite Ed. clear. induction d as [| c d IH]; cbn;
      [reflexivity | rewrite IH; reflexivity]. }
  rewrite Ed'. rewrite hex_value_zero_pad, zero_pad_length.
  split; [exact Vd | ]. split; [lia | ]. split.
  - intro H. specialize (Ub 7%nat ltac:(lia)).
    change (16 ^ Z.of_nat 7) with (2 ^ 28) in Ub. specialize (Ub H). lia.
  - intro H. specialize (Lb 7%nat).
    change (16 ^ Z.of_nat 7) with (2 ^ 28) in Lb. specialize (Lb H). lia.
Qed.

(** For every [int] passed to [publishGesture], the formatted text is "0x"
    followed by upper-case hexadecimal digits that denote the code (read as
    32-bit unsigned); so two codes with the same text are equal modulo 2^32,
    and a code from 0 to 2^28 - 1 is recovered from the message sent. *)
Theorem payload_denotes_code (g : Z) :
  payload_code (format_gesture g) = Some (wrap32 g) /\
  (forall g', format_gesture g = format_gesture g' -> wrap32 g = wrap32 g') /\
  (0 <= g < 2 ^ 28 -> payload_code (gesture_message g) = Some g).
Proof.
  assert (P : forall v, payload_code (format_gesture v) = Some (wrap32 v)).
  { intro v. destruct (format_02X_spec v) as (V & L & _).
    unfold format_gesture. cbn [append payload_code].
    destruct (format_02X v); [cbn in L; lia | exact V]. }
  split; [apply P | ]. split.
  - intros g' E. pose proof (P g) as H. rewrite E, P in H. congruence.
  - intro H.
    assert (W : wrap32 g = g) by (unfold wrap32; apply Z.mod_small; lia).
    destruct (format_02X_spec g) as (_ & _ & U & _).
    unfold gesture_message, snprintf, message_size.
    rewrite substring_short.
    + rewrite P, W. reflexivity.
    + unfold format_gesture. rewrite string_length_app. cbn [String.length].
      specialize (U ltac:(lia)). change (10 - 1)%nat with 9%nat. lia.
Qed.

Lemma payload_denotes_code_witness :
  payload_code (gesture_message 171) = Some 171.
Proof. apply (proj2 (proj2 (payload_denotes_code 171))). lia. Defined.

(** The message always fits its ten bytes: at most nine characters whatever
    the [int]; it is the whole formatted text when the code, read as 32-bit
    unsigned, is below 2^28, and the text cut after nine of its ten
    characters otherwise (any negative code, for one). *)
Theorem gesture_message_fits (g : Z) :
  (String.length (gesture_message g) + 1 <= message_size)%nat /\
  (wrap32 g < 2 ^ 28 -> gesture_message g = format_gesture g) /\
  (2 ^ 28 <= wrap32 g ->
   String.length (format_gesture g) = 10%nat /\
   gesture_message g = substring 0 9 (format_gesture g) /\
   String.length (gesture_message g) = 9%nat).
Proof.
  destruct (format_02X_spec g) as (_ & L & U & B).
  assert (F : String.length (format_gesture g) =
              (2 + String.length (format_02X g))%nat).
  { unfold format_gesture. rewrite string_length_app. reflexivity. }
  unfold gesture_message, snprintf, message_size.
  change (10 - 1)%nat with 9%nat.
  split; [rewrite substring_length; lia | ]. split.
  - intro H. apply substring_short. specialize (U H). lia.
  - intro H. specialize (B H). split; [lia | ]. split; [reflexivity | ].
    rewrite substring_length. lia.
Qed.

Lemma gesture_message_fits_witness :
  String.length (format_gesture (-1)) = 10%nat /\
  gesture_message (-1) = substring 0 9 (format_gesture (-1)) /\
  String.length (gesture_message (-1)) = 9%nat.
Proof.
  apply (proj2 (proj2 (gesture_message_fits (-1)))).
  unfold wrap32. cbn. lia.
Defined.

(** ** Start-up *)

Lemma setup_only fuel : only setup_event (setup fuel).
Proof.
  unfold setup, connectToWiFi, connectToMQTT, wifi_down, wifi_wait, mqtt_down,
    mqtt_attempt, Serial_print, Serial_println, WiFi_begin, WiFi_status,
    mqttClient_connected, mqttClient_connect, mqttClient_state, delay.
  repeat first [only_step | apply only_mpu_begin; reflexivity].
Qed.

Lemma setup_event_no_sampling ev :
  setup_event ev = true ->
  is_sensor_read ev = false /\ is_MqttPublish ev = false /\ is_Millis ev = false.
Proof. destruct ev; cbn; intro; repeat split; congruence. Qed.

Lemma setup_done_sensor fuel hw s s' :
  setup fuel hw s = Done tt s' -> hw_mpu_begin hw = true.
Proof.
  unfold setup. unfold bind at 1, emit at 1. unfold bind at 1.
  destruct (connectToWiFi fuel hw _) as [[] s1 | s1]; [ | discriminate].
  unfold bind at 1, emit at 1. unfold bind at 1.
  destruct (connectToMQTT fuel hw _) as [[] s2 | s2]; [ | discriminate].
  unfold bind, mpu_begin, Serial_println, emit, halt, ret.
  destruct (hw_mpu_begin hw); [reflexivity | discriminate].
Qed.

(** [setup] returns only if the inertial sensor answered; it then leaves the
    link observed up, the session observed connected and the sensor
    configured for 8 g, 500 deg/s and 21 Hz, and it has neither read a sensor
    channel, nor read the clock, nor sent anything. *)
Theorem setup_returns_ready (fuel : nat) (hw : Hardware) (s s' : State) :
  setup fuel hw s = Done tt s' ->
  hw_mpu_begin hw = true /\
  link_up (log s') = true /\
  session_connected (log s') = true /\
  (exists older,
     log s' = MpuSetFilterBandwidth 21 :: MpuSetGyroRange 500
              :: MpuSetAccelerometerRange 8 :: MpuBegin true
              :: MqttConnected true :: older) /\
  lastReadTime s' = lastReadTime s /\
  calls is_sensor_read s' = calls is_sensor_read s /\
  calls is_Millis s' = calls is_Millis s /\
  calls is_MqttPublish s' = calls is_MqttPublish s.
Proof.
  intro H.
  pose proof (setup_only fuel hw s) as Q. rewrite H in Q. cbn [final_state] in Q.
  assert (C : forall kind,
             (forall ev, setup_event ev = true -> kind ev = false) ->
             calls kind s' = calls kind s).
  { intros kind Hk. eapply quiet_calls; [exact Hk | exact Q]. }
  unfold setup in H. unfold bind at 1, emit at 1 in H.
  unfold bind at 1 in H.
  destruct (connectToWiFi fuel hw _) as [[] s1 | s1] eqn:E1; [ | discriminate].
  apply connectToWiFi_done in E1.
  unfold bind at 1, emit at 1 in H. unfold bind at 1 in H.
  destruct (connectToMQTT fuel hw _) as [[] s2 | s2] eqn:E2; [ | discriminate].
  apply connectToMQTT_done in E2. destruct E2 as (s0 & [_ (n0 & L0 & F0)] & ->).
  assert (U : link_up (log s0) = true).
  { rewrite L0. rewrite link_up_app; [exact E1 | ].
    rewrite forallb_forall in *. intros ev Hev. specialize (F0 ev Hev).
    destruct ev; cbn in *; congruence. }
  unfold bind, mpu_begin, Serial_println, emit, halt, ret in H.
  destruct (hw_mpu_begin hw); cbn in H; [ | discriminate].
  injection H as <-.
  split; [reflexivity | ]. split; [exact U | ]. split; [reflexivity | ].
  split; [eexists; reflexivity | ]. split; [apply Q | ].
  repeat split; apply C; intros ev Hev; apply setup_event_no_sampling, Hev.
Qed.

Lemma setup_returns_ready_witness :
  link_up (log (after_setup refusing_sends)) = true /\
  session_connected (log (after_setup refusing_sends)) = true.
Proof.
  destruct (setup_returns_ready 2 refusing_sends initial_state
              (after_setup refusing_sends) eq_refl) as (_ & L & S & _).
  split; assumption.
Defined.

(** Without the inertial sensor the firmware never gets past [setup]:
    however many passes are asked for, nothing returns, no sensor channel is
    read, the clock is not read and nothing is sent. *)
Theorem missing_sensor_halts (n fuel : nat) (hw : Hardware) :
  hw_mpu_begin hw = false ->
  let r := firmware n fuel hw initial_state in
  returned r = None /\
  final_state r = final_state (setup fuel hw initial_state) /\
  calls is_sensor_read (final_state r) = 0%nat /\
  calls is_Millis (final_state r) = 0%nat /\
  calls is_MqttPublish (final_state r) = 0%nat.
Proof.
  intro H. cbv zeta.
  assert (E : firmware n fuel hw initial_state =
              Spinning (final_state (setup fuel hw initial_state))).
  { unfold firmware, bind.
    destruct (setup fuel hw initial_state) as [[] s' | s'] eqn:E;
      [ | reflexivity].
    apply setup_done_sensor in E. congruence. }
  rewrite E. cbn [returned final_state].
  pose proof (setup_only fuel hw initial_state) as Q.
  assert (C : forall kind,
             (forall ev, setup_event ev = true -> kind ev = false) ->
             calls kind (final_state (setup fuel hw initial_state)) = 0%nat).
  { intros kind Hk. change 0%nat with (calls kind initial_state).
    eapply quiet_calls; [exact Hk | exact Q]. }
  repeat split; apply C; intros ev Hev; apply setup_event_no_sampling, Hev.
Qed.

Lemma missing_sensor_halts_witness :
  returned (firmware 3 2 no_sensor initial_state) = None /\
  log (final_state (firmware 3 2 no_sensor initial_state)) =
    log (final_state (setup 2 no_sensor initial_state)).
Proof.
  destruct (missing_sensor_halts 3 2 no_sensor eq_refl) as (R & E & _).
  split; [exact R | rewrite E; reflexivity].
Defined.

(** ** Outages *)

Lemma loop_blocked fuel hw s :
  returned (ensure_ready fuel hw s) = None ->
  loop fuel hw s = Spinning (final_state (ensure_ready fuel hw s)).
Proof.
  intro H. rewrite loop_ensure_ready. unfold bind.
  destruct (ensure_ready fuel hw s); [discriminate | reflexivity].
Qed.

Lemma connectToMQTT_never hw :
  (forall k, hw_mqtt_connected hw k = false) ->
  forall fuel s, returned (connectToMQTT fuel hw s) = None.
Proof.
  intros H fuel. unfold connectToMQTT.
  induction fuel as [| fuel IH]; intro s; [reflexivity | ].
  destruct (mqtt_attempt_run hw (push (MqttConnected false) s))
    as (s2 & Eb & _).
  erewrite while_true; [apply IH | | exact Eb].
  rewrite mqtt_down_run, H. reflexivity.
Qed.

Lemma wifi_loop_never hw :
  (forall k, hw_wifi_status hw k <> WL_CONNECTED) ->
  forall fuel s, returned (while fuel wifi_down wifi_wait hw s) = None.
Proof.
  intros H fuel.
  induction fuel as [| fuel IH]; intro s; [reflexivity | ].
  destruct (wifi_wait_run hw
              (push (WiFiStatus (hw_wifi_status hw (calls is_WiFiStatus s))) s))
    as (s2 & Eb & _).
  erewrite while_true; [apply IH | | exact Eb].
  rewrite wifi_down_run.
  destruct (_ =? _) eqn:E; [ | reflexivity].
  apply Z.eqb_eq in E. elim (H _ E).
Qed.

Lemma ensure_ready_never fuel hw s :
  (forall k, hw_wifi_status hw k <> WL_CONNECTED) \/
  (forall k, hw_mqtt_connected hw k = false) ->
  returned (ensure_ready fuel hw s) = None.
Proof.
  intros [H | H]; unfold ensure_ready.
  - unfold bind at 1.
    assert (E : returned (ensureWiFiConnection fuel hw s) = None).
    { unfold ensureWiFiConnection, bind at 1, WiFi_status, ask. cbv beta zeta.
      pose proof (H (calls is_WiFiStatus s)) as H0. apply Z.eqb_neq in H0.
      rewrite H0. cbn [negb]. unfold connectToWiFi, Serial_print,
        Serial_println, WiFi_begin. unfold bind at 1 2 3, emit at 1 2 3.
      unfold bind at 1.
      match goal with
      | |- context [while fuel wifi_down wifi_wait hw ?s1] =>
          pose proof (wifi_loop_never hw H fuel s1) as N;
          destruct (while fuel wifi_down wifi_wait hw s1)
      end; [discriminate | reflexivity]. }
    destruct (ensureWiFiConnection fuel hw s); [discriminate | reflexivity].
  - unfold bind at 1.
    destruct (ensureWiFiConnection fuel hw s) as [[] s1 | s1]; [ | reflexivity].
    unfold ensureMQTTConnection, bind at 1, mqttClient_connected, ask.
    cbv beta zeta. rewrite H. cbn [negb].
    apply connectToMQTT_never, H.
Qed.

(** While the link never comes up, or the session never does, a pass through
    [loop] does not return however many retry rounds it is given, and it
    starves the rest of the pass: no sensor channel is read, the clock is not
    read, nothing is sent and [lastReadTime] does not move. *)
Theorem outage_starves_sampling (fuel : nat) (hw : Hardware) (s : State) :
  (forall k, hw_wifi_status hw k <> WL_CONNECTED) \/
  (forall k, hw_mqtt_connected hw k = false) ->
  let s' := final_state (loop fuel hw s) in
  returned (loop fuel hw s) = None /\
  calls is_sensor_read s' = calls is_sensor_read s /\
  calls is_Millis s' = calls is_Millis s /\
  calls is_MqttPublish s' = calls is_MqttPublish s /\
  lastReadTime s' = lastReadTime s.
Proof.
  intro H. cbv zeta.
  rewrite (loop_blocked fuel hw s (ensure_ready_never fuel hw s H)).
  cbn [returned final_state].
  pose proof (ensure_ready_only fuel hw s) as Q.
  split; [reflexivity | ].
  repeat split; try apply Q;
    (eapply quiet_calls; [ | exact Q]; intros []; cbn; congruence).
Qed.

Lemma outage_starves_sampling_witness :
  returned (loop 50 session_never_up (after_setup refusing_sends)) = None /\
  calls is_sensor_read
    (final_state (loop 50 session_never_up (after_setup refusing_sends))) =
  calls is_sensor_read (after_setup refusing_sends).
Proof.
  destruct (outage_starves_sampling 50 session_never_up
              (after_setup refusing_sends)) as (R & C & _).
  - right. intro k. reflexivity.
  - split; [exact R | exact C].
Defined.

(** ** What each connectivity check leaves alone *)

(** The session check, returning or not, never polls the link and never
    restarts the association, so a link lost while it retries goes unnoticed
    until the next pass; the link check, returning or not, never calls the
    MQTT client. *)
Theorem connectivity_checks_keep_apart (fuel : nat) (hw : Hardware) (s : State) :
  (let s' := final_state (ensureMQTTConnection fuel hw s) in
   calls is_WiFiStatus s' = calls is_WiFiStatus s /\
   calls is_WiFiBegin s' = calls is_WiFiBegin s /\
   link_up (log s') = link_up (log s)) /\
  (let s' := final_state (ensureWiFiConnection fuel hw s) in
   calls is_session s' = calls is_session s /\
   calls is_MqttPublish s' = calls is_MqttPublish s /\
   session_connected (log s') = session_connected (log s)).
Proof.
  cbv zeta. split.
  - pose proof (ensureMQTTConnection_only fuel hw s) as Q.
    split; [ | split].
    + eapply quiet_calls; [ | exact Q]. intros []; cbn; congruence.
    + eapply quiet_calls; [ | exact Q]. intros []; cbn; congruence.
    + destruct Q as [_ (n & L & F)]. rewrite L. apply link_up_app.
      rewrite forallb_forall in *. intros ev Hev. specialize (F ev Hev).
      destruct ev; cbn in *; congruence.
  - pose proof (ensureWiFiConnection_only fuel hw s) as Q.
    split; [ | split].
    + eapply quiet_calls; [ | exact Q]. intros []; cbn; congruence.
    + eapply quiet_calls; [ | exact Q]. intros []; cbn; congruence.
    + destruct Q as [_ (n & L & F)]. rewrite L. apply session_connected_app.
      rewrite forallb_forall in *. intros ev Hev. specialize (F ev Hev).
      destruct ev; cbn in *; congruence.
Qed.

Lemma calls_push kind ev s :
  calls kind (push ev s) =
  if kind ev then S (calls kind s) else calls kind s.
Proof. unfold calls, push. cbn. destruct (kind ev); reflexivity. Qed.

Lemma wifi_loop_only fuel : only wifi_wait_event (while fuel wifi_down wifi_wait).
Proof.
  unfold wifi_down, wifi_wait, WiFi_status, Serial_print, delay.
  repeat only_step.
Qed.

(** The association is started once for each loss of the link that the check
    observes, and never again while it waits: [ensureWiFiConnection] calls
    [WiFi.begin] once if its poll finds the link down, however many rounds
    follow and whether it returns or not, and not at all if the link is
    up. *)
Theorem ensureWiFiConnection_begins_once (fuel : nat) (hw : Hardware) (s : State) :
  calls is_WiFiBegin (final_state (ensureWiFiConnection fuel hw s)) =
  ((if (hw_wifi_status hw (calls is_WiFiStatus s) =? WL_CONNECTED)%Z
    then 0 else 1) + calls is_WiFiBegin s)%nat.
Proof.
  unfold ensureWiFiConnection, bind at 1, WiFi_status, ask. cbv beta zeta.
  destruct (_ =? _); cbn [negb]; [reflexivity | ].
  unfold connectToWiFi, Serial_print, Serial_println, WiFi_begin.
  unfold bind at 1 2 3, emit at 1 2 3. unfold bind at 1.
  match goal with
  | |- context [while fuel wifi_down wifi_wait hw ?s1] =>
      pose proof (wifi_loop_only fuel hw s1) as Q;
      destruct (while fuel wifi_down wifi_wait hw s1) as [[] s2 | s2];
      cbn [final_state] in Q;
      assert (C : calls is_WiFiBegin s2 = calls is_WiFiBegin s1)
        by (eapply quiet_calls; [ | exact Q]; intros []; cbn; congruence)
  end; cbn [final_state emit]; [rewrite calls_push | ]; rewrite C; reflexivity.
Qed.

(** ** A pass with the connection up *)

Lemma detectGesture_delay hw s :
  total_delay (log (final_state (detectGesture hw s))) =
  100 + total_delay (log s).
Proof.
  unfold detectGesture, debugSensors, debounceTouchSensor,
    readFlexSensor, readMPU6050, analogRead, digitalRead, mpu_getEvent,
    Serial_print, delay, bind, ask, emit, ret.
  cbn -[Z.add].
  destruct (_ =? _); cbn -[Z.add]; destruct (_ =? _); cbn -[Z.add]; lia.
Qed.

Lemma publishGesture_delay g hw s :
  total_delay (log (final_state (publishGesture g hw s))) = total_delay (log s).
Proof.
  rewrite publishGesture_run. cbn [final_state log].
  destruct (hw_mqtt_publish hw _); reflexivity.
Qed.

Lemma ensure_ready_connected fuel hw s :
  hw_wifi_status hw (calls is_WiFiStatus s) = WL_CONNECTED ->
  hw_mqtt_connected hw (calls is_MqttConnected s) = true ->
  ensure_ready fuel hw s =
  Done tt (push (MqttConnected true) (push (WiFiStatus WL_CONNECTED) s)).
Proof.
  intros Hw Hm.
  assert (E1 : ensureWiFiConnection fuel hw s =
               Done tt (push (WiFiStatus WL_CONNECTED) s)).
  { unfold ensureWiFiConnection, bind, WiFi_status, ask. cbv beta zeta.
    rewrite Hw. reflexivity. }
  assert (E2 : ensureMQTTConnection fuel hw (push (WiFiStatus WL_CONNECTED) s) =
               Done tt (push (MqttConnected true)
                          (push (WiFiStatus WL_CONNECTED) s))).
  { unfold ensureMQTTConnection, bind, mqttClient_connected, ask.
    cbv beta zeta.
    change (calls is_MqttConnected (push (WiFiStatus WL_CONNECTED) s))
      with (calls is_MqttConnected s).
    rewrite Hm. reflexivity. }
  unfold ensure_ready, bind. rewrite E1. exact E2.
Qed.

(** With the link up and the session connected at its two polls, a pass
    through [loop] needs no retry round at all and returns; it blocks for
    100 ms (the two debounce waits) if the interval has elapsed and does not
    block otherwise, in which case its three calls are the two polls and the
    reading of the clock. *)
Theorem loop_when_connected (fuel : nat) (hw : Hardware) (s : State) :
  hw_wifi_status hw (calls is_WiFiStatus s) = WL_CONNECTED ->
  hw_mqtt_connected hw (calls is_MqttConnected s) = true ->
  let cur := wrap32 (hw_millis hw (calls is_Millis s)) in
  let s' := final_state (loop fuel hw s) in
  returned (loop fuel hw s) = Some tt /\
  total_delay (log s') =
    total_delay (log s) +
    (if interval_elapsed cur (lastReadTime s) then 100 else 0) /\
  (interval_elapsed cur (lastReadTime s) = false ->
   log s' = Millis cur :: MqttConnected true :: WiFiStatus WL_CONNECTED
              :: log s).
Proof.
  intros Hw Hm. cbv zeta.
  pose proof (ensure_ready_connected fuel hw s Hw Hm) as E.
  set (s2 := push (MqttConnected true) (push (WiFiStatus WL_CONNECTED) s)) in *.
  assert (E' : loop fuel hw s = sample_and_publish hw s2).
  { rewrite loop_ensure_ready. unfold bind at 1. rewrite E. reflexivity. }
  rewrite E'. clear E'.
  pose proof (sample_and_publish_run hw s2) as H. cbv zeta in H.
  change (calls is_Millis s2) with (calls is_Millis s) in H.
  change (lastReadTime s2) with (lastReadTime s) in H.
  set (cur := wrap32 (hw_millis hw (calls is_Millis s))) in *.
  destruct (interval_elapsed cur (lastReadTime s)).
  - destruct H as (s3 & E3 & _ & ->).
    set (s0 := {| lastReadTime := cur; log := Millis cur :: log s2 |}) in *.
    pose proof (detectGesture_delay hw s0) as D. rewrite E3 in D.
    cbn [final_state] in D.
    change (total_delay (log s0)) with (total_delay (log s)) in D.
    destruct (negb _).
    + pose proof (publishGesture_delay (classify (frame_read hw s0)) hw s3) as P.
      rewrite publishGesture_run in *. cbn [returned final_state] in *.
      split; [reflexivity | ]. split; [lia | discriminate].
    + cbn [returned final_state].
      split; [reflexivity | ]. split; [lia | discriminate].
  - rewrite H. cbn [returned final_state].
    split; [reflexivity | ]. split; [ | reflexivity].
    change (total_delay (log (push (Millis cur) s2)))
      with (total_delay (log s)). lia.
Qed.

Lemma loop_when_connected_witness :
  returned (loop 0 refusing_sends (after_setup refusing_sends)) = Some tt /\
  total_delay
    (log (final_state (loop 0 refusing_sends (after_setup refusing_sends)))) =
  total_delay (log (after_setup refusing_sends)) + 100.
Proof.
  destruct (loop_when_connected 0 refusing_sends (after_setup refusing_sends)
              eq_refl eq_refl) as (R & D & _).
  split; [exact R | exact D].
Defined.

(** ** What a pass does to [lastReadTime], and how often it sends *)

(** In any pass, returning or not: at most one send; and a pass that sends
    has returned, has read both flex channels, and has moved [lastReadTime]
    to the clock reading of this pass. *)
Theorem loop_sends_at_most_once (fuel : nat) (hw : Hardware) (s : State) :
  let s' := final_state (loop fuel hw s) in
  (calls is_MqttPublish s' = calls is_MqttPublish s \/
   calls is_MqttPublish s' = S (calls is_MqttPublish s)) /\
  (calls is_MqttPublish s' = S (calls is_MqttPublish s) ->
   returned (loop fuel hw s) = Some tt /\
   calls is_AnalogRead s' = S (S (calls is_AnalogRead s)) /\
   lastReadTime s' = wrap32 (hw_millis hw (calls is_Millis s))).
Proof.
  cbv zeta.
  pose proof (ensure_ready_only fuel hw s) as Q.
  destruct (ensure_ready fuel hw s) as [[] s2 | s2] eqn:E;
    cbn [final_state] in Q.
  - pose proof (loop_after_ready fuel hw s s2 E) as (_ & _ & _ & R & H).
    cbv zeta in H.
    assert (M : calls is_Millis s2 = calls is_Millis s).
    { eapply quiet_calls; [ | exact Q]. intros []; cbn; congruence. }
    rewrite M in H.
    destruct (interval_elapsed _ _).
    + destruct H as (_ & T & A & P). rewrite P, T, A.
      destruct (_ =? 0); cbn [Nat.add]; (split; [auto | ]);
        [intro F; exfalso; lia | auto].
    + rewrite H.
      assert (P : calls is_MqttPublish s2 = calls is_MqttPublish s).
      { eapply quiet_calls; [ | exact Q]. intros []; cbn; congruence. }
      change (calls is_MqttPublish (push (Millis (wrap32 (hw_millis hw
                (calls is_Millis s)))) s2)) with (calls is_MqttPublish s2).
      rewrite P. split; [auto | ]. intro F. exfalso. lia.
  - assert (N : returned (ensure_ready fuel hw s) = None) by (rewrite E; reflexivity).
    rewrite (loop_blocked fuel hw s N), E. cbn [final_state].
    assert (P : calls is_MqttPublish s2 = calls is_MqttPublish s).
    { eapply quiet_calls; [ | exact Q]. intros []; cbn; congruence. }
    rewrite P. split; [auto | ]. intro F. exfalso. lia.
Qed.

Lemma loop_sends_at_most_once_witness :
  calls is_AnalogRead
    (final_state (loop 1 refusing_sends (after_setup refusing_sends))) = 2%nat.
Proof.
  apply (proj2 (loop_sends_at_most_once 1 refusing_sends
                  (after_setup refusing_sends))).
  reflexivity.
Defined.

Lemma sample_and_publish_time hw s :
  let cur := wrap32 (hw_millis hw (calls is_Millis s)) in
  let s' := final_state (sample_and_publish hw s) in
  lastReadTime s' = lastReadTime s \/
  (lastReadTime s' = cur /\ In (Millis cur) (log s')).
Proof.
  cbv zeta. pose proof (sample_and_publish_run hw s) as H. cbv zeta in H.
  set (cur := wrap32 (hw_millis hw (calls is_Millis s))) in *.
  destruct (interval_elapsed _ _).
  - right. destruct H as (s3 & _ & [T (n3 & L3 & _)] & ->).
    cbn [log lastReadTime] in T, L3.
    assert (I3 : In (Millis cur) (log s3)).
    { rewrite L3. apply in_or_app. right. left. reflexivity. }
    destruct (negb _); [ | split; assumption].
    rewrite publishGesture_run. cbn [final_state lastReadTime log].
    split; [exact T | ]. apply in_or_app. right. right. exact I3.
  - left. rewrite H. reflexivity.
Qed.

Lemma grows_in P s s' ev : grows P s s' -> In ev (log s) -> In ev (log s').
Proof. intros (n & L & _) H. rewrite L. apply in_or_app. right. exact H. Qed.

Lemma loop_keeps_reading fuel hw s :
  time_is_a_reading s -> time_is_a_reading (final_state (loop fuel hw s)).
Proof.
  intros [R I].
  pose proof (loop_sends fuel hw s) as G.
  pose proof (ensure_ready_only fuel hw s) as Q.
  destruct (ensure_ready fuel hw s) as [[] s2 | s2] eqn:E;
    cbn [final_state] in Q.
  - assert (E' : loop fuel hw s = sample_and_publish hw s2).
    { rewrite loop_ensure_ready. unfold bind at 1. rewrite E. reflexivity. }
    rewrite E' in *. destruct Q as [T _].
    destruct (sample_and_publish_time hw s2) as [K | [K1 K2]].
    + unfold time_is_a_reading. rewrite K, T. split; [exact R | ].
      destruct I as [I | I]; [left; exact I | right].
      eapply grows_in; [exact G | exact I].
    + unfold time_is_a_reading. rewrite K1. split.
      * unfold wrap32. apply Z.mod_pos_bound. lia.
      * right. exact K2.
  - assert (N : returned (ensure_ready fuel hw s) = None) by (rewrite E; reflexivity).
    rewrite (loop_blocked fuel hw s N), E in *. cbn [final_state] in *.
    destruct Q as [T _]. unfold time_is_a_reading. rewrite T.
    split; [exact R | ].
    destruct I as [I | I]; [left; exact I | right].
    eapply grows_in; [exact G | exact I].
Qed.

Lemma loops_keep_reading n fuel hw s :
  time_is_a_reading s -> time_is_a_reading (final_state (loops n fuel hw s)).
Proof.
  revert s. induction n as [| n IH]; intros s I; cbn [loops]; [exact I | ].
  unfold bind. pose proof (loop_keeps_reading fuel hw s I) as I1.
  destruct (loop fuel hw s) as [[] s1 | s1]; cbn [final_state] in I1; auto.
Qed.

(** However the firmware runs, [lastReadTime] holds a 32-bit value that is 0
    or a value [millis()] returned earlier in the run. *)
Theorem lastReadTime_is_a_clock_reading (n fuel : nat) (hw : Hardware) :
  let s' := final_state (firmware n fuel hw initial_state) in
  0 <= lastReadTime s' < 2 ^ 32 /\
  (lastReadTime s' = 0 \/ In (Millis (lastReadTime s')) (log s')).
Proof.
  cbv zeta. change (time_is_a_reading
                      (final_state (firmware n fuel hw initial_state))).
  assert (I0 : time_is_a_reading (final_state (setup fuel hw initial_state))).
  { destruct (setup_only fuel hw initial_state) as [T _].
    unfold time_is_a_reading. rewrite T. cbn. split; [lia | left; reflexivity]. }
  unfold firmware, bind.
  destruct (setup fuel hw initial_state) as [[] s1 | s1];
    cbn [final_state] in I0; [ | exact I0].
  apply loops_keep_reading, I0.
Qed.

(** ** Sends over a whole run *)

Lemma loop_clean fuel hw s : clean_since (log s) (final_state (loop fuel hw s)).
Proof.
  rewrite loop_unfold. unfold bind at 1.
  pose proof (ensureWiFiConnection_only fuel hw s) as Q1.
  assert (W : forall ev, wifi_event ev = true -> no_send ev = true)
    by (intros []; cbn; congruence).
  assert (M : forall ev, mqtt_event ev = true -> no_send ev = true)
    by (intros []; cbn; congruence).
  assert (C1 : clean_since (log s) (final_state (ensureWiFiConnection fuel hw s))).
  { eapply clean_quiet; [apply clean_since_start | ].
    eapply quiet_weaken; [exact W | exact Q1]. }
  destruct (ensureWiFiConnection fuel hw s) as [[] s1 | s1];
    cbn [final_state] in C1; [ | exact C1].
  unfold bind at 1.
  pose proof (ensureMQTTConnection_only fuel hw s1) as Q2.
  destruct (ensureMQTTConnection fuel hw s1) as [[] s2 | s2] eqn:E2;
    cbn [final_state] in Q2.
  - apply ensureMQTTConnection_done in E2. destruct E2 as (s0 & Q0 & ->).
    apply sample_and_publish_clean, ready_connected.
    eapply clean_quiet; [exact C1 | ].
    eapply quiet_weaken; [exact M | exact Q0].
  - eapply clean_quiet; [exact C1 | ].
    eapply quiet_weaken; [exact M | exact Q2].
Qed.

Lemma clean_whole s s' :
  publishes_connected (log s) = true -> clean_since (log s) s' ->
  publishes_connected (log s') = true.
Proof.
  intros H (n & L & C). rewrite L. apply publishes_connected_app; assumption.
Qed.

Lemma loops_clean n fuel hw s :
  publishes_connected (log s) = true ->
  publishes_connected (log (final_state (loops n fuel hw s))) = true.
Proof.
  revert s. induction n as [| n IH]; intros s I; cbn [loops]; [exact I | ].
  unfold bind.
  pose proof (clean_whole s _ I (loop_clean fuel hw s)) as I1.
  destruct (loop fuel hw s) as [[] s1 | s1]; cbn [final_state] in I1; auto.
Qed.

(** Over a whole run of the firmware, [setup] and any number of passes:
    [setup] sends nothing, and every send is made with the session last
    observed connected, by a poll that came after every earlier connect
    attempt. *)
Theorem firmware_publishes_connected (n fuel : nat) (hw : Hardware) :
  calls is_MqttPublish (final_state (setup fuel hw initial_state)) = 0%nat /\
  publishes_connected
    (log (final_state (firmware n fuel hw initial_state))) = true.
Proof.
  pose proof (setup_only fuel hw initial_state) as Q.
  assert (P0 : calls is_MqttPublish (final_state (setup fuel hw initial_state))
               = 0%nat).
  { change 0%nat with (calls is_MqttPublish initial_state).
    eapply quiet_calls; [ | exact Q].
    intros ev Hev. apply setup_event_no_sampling, Hev. }
  split; [exact P0 | ].
  assert (I0 : publishes_connected
                 (log (final_state (setup fuel hw initial_state))) = true).
  { destruct Q as [_ (new & L & F)]. rewrite L. cbn [initial_state log].
    rewrite app_nil_r. apply publishes_connected_quiet.
    rewrite forallb_forall in *. intros ev Hev. specialize (F ev Hev).
    unfold no_send. destruct (setup_event_no_sampling ev F) as (_ & -> & _).
    reflexivity. }
  unfold firmware, bind.
  destruct (setup fuel hw initial_state) as [[] s1 | s1];
    cbn [final_state] in I0; [ | exact I0].
  apply loops_clean, I0.
Qed.
